(** * StegoClient: the sender of a TCP sequence-number covert channel

    A shallow embedding of [stego_client.py].  Python integers are
    unbounded, so every integer of the program is a [Z] and no wrap-around
    is inserted where the code has none.  The client object, the packets it
    hands to the transport and the calls it makes on the socket and the
    logger are explicit: a method is a function from the client object to
    the list of effects it performed, the updated object and its outcome
    (a returned value or a raised exception).  The transport refuses a packet
    whose sequence or acknowledgment number does not fit 32 bits, which is
    where the unbounded integers of the program meet the wire. *)

From Stdlib Require Import String ZArith List Bool Lia Sorted.
Import ListNotations.
Local Open Scope Z_scope.

(** ** The Python and library primitives the client calls *)

Module Py.

(** A [str] is a sequence of Unicode code points. *)
Definition str := list Z.

(** [chr.encode("utf-8")] for one code point; [None] stands for
    UnicodeEncodeError (lone surrogates cannot be encoded). *)
Definition encode_code_point (c : Z) : option (list Z) :=
  if c <? 0 then None
  else if c <? 0x80 then Some [c]
  else if c <? 0x800 then
    Some [Z.lor 0xC0 (Z.shiftr c 6); Z.lor 0x80 (Z.land c 0x3F)]
  else if c <? 0x10000 then
    if (0xD800 <=? c) && (c <=? 0xDFFF) then None
    else Some [Z.lor 0xE0 (Z.shiftr c 12);
               Z.lor 0x80 (Z.land (Z.shiftr c 6) 0x3F);
               Z.lor 0x80 (Z.land c 0x3F)]
  else if c <? 0x110000 then
    Some [Z.lor 0xF0 (Z.shiftr c 18);
          Z.lor 0x80 (Z.land (Z.shiftr c 12) 0x3F);
          Z.lor 0x80 (Z.land (Z.shiftr c 6) 0x3F);
          Z.lor 0x80 (Z.land c 0x3F)]
  else None.

(** [s.encode("utf-8")]. *)
Fixpoint encode_utf8 (s : str) : option (list Z) :=
  match s with
  | [] => Some []
  | c :: rest =>
      match encode_code_point c, encode_utf8 rest with
      | Some bs, Some bs' => Some (bs ++ bs')
      | _, _ => None
      end
  end.

(** [len(b)] as a Python integer. *)
Definition len {A} (l : list A) : Z := Z.of_nat (List.length l).

(** The [n] low bytes of [x], most significant first. *)
Fixpoint big_endian (n : nat) (x : Z) : list Z :=
  match n with
  | O => []
  | S k => Z.land (Z.shiftr x (8 * Z.of_nat k)) 0xFF :: big_endian k x
  end.

(** [x.to_bytes(n, "big")]; [None] stands for OverflowError (negative
    [x], or [x] too big for [n] bytes). *)
Definition to_bytes (x n : Z) : option (list Z) :=
  if (0 <=? x) && (x <? 2 ^ (8 * n)) then Some (big_endian (Z.to_nat n) x)
  else None.

(** The eight bits of a byte as integers 0 and 1, most significant first:
    what a default (big-endian) [bitarray] holds for one byte. *)
Definition byte_bits (b : Z) : list Z :=
  map (fun k => if Z.testbit b k then 1 else 0) [7; 6; 5; 4; 3; 2; 1; 0].

(** [bits = bitarray(); bits.frombytes(bs)], iterated. *)
Definition frombytes (bs : list Z) : list Z := flat_map byte_bits bs.

(** The binary digits of [p], most significant first, in front of [acc]. *)
Fixpoint pos_bits (p : positive) (acc : list Z) : list Z :=
  match p with
  | xH => 1 :: acc
  | xO q => pos_bits q (0 :: acc)
  | xI q => pos_bits q (1 :: acc)
  end.

(** [bitarray.util.int2ba(x)]: the bits of a non-negative integer; [None]
    stands for the OverflowError it raises for a negative one. *)
Definition int2ba (x : Z) : option (list Z) :=
  match x with
  | Z0 => Some [0]
  | Zpos p => Some (pos_bits p [])
  | Zneg _ => None
  end.

(** [randrange(start, stop)]: an element of [range(start, stop)], picked
    by the generator's draw [r]. *)
Definition randrange (start stop r : Z) : Z := start + r mod (stop - start).

End Py.

(** ** Packets (scapy's [IP(...) / TCP(...)]) *)

Record IP := mkIP { src : string; dst : string }.

Record TCP := mkTCP {
  sport : Z; dport : Z; seq : Z; ack : Z; flags : Z
}.

(** A packet may lack either layer ([haslayer]). *)
Record packet := mkPacket { ip_layer : option IP; tcp_layer : option TCP }.

(** [IP(src=.., dst=..) / tcp_l] *)
Definition over (i : IP) (t : TCP) : packet := mkPacket (Some i) (Some t).

(** [sniff(lfilter=f, count=n, timeout=t)] over the packets that arrive
    within the timeout: the first [n] that pass the filter. *)
Definition sniff (lfilter : packet -> bool) (count : nat)
    (arriving : list packet) : list packet :=
  firstn count (filter lfilter arriving).

(** ** session_info.py *)

(** Modelled from the spec: [session_info.py] is not part of the sources;
    the header layout is byte 0 = magic, bytes 1-2 = length, byte 3 =
    checksum, and a byte has eight bits. *)
Definition BYTE_LEN_IN_BITS : Z := 8.
Definition MAGIC_LEN_BYTE : Z := 1.
Definition MSG_LEN_BYTE : Z := 2.
Definition CRC_LEN_BYTE : Z := 1.

(** The remaining names imported from [session_info.py] are taken as
    parameters: the magic constant, the CRC function, the service port and
    the TCP flag values. *)
Record session_info := mkSessionInfo {
  MAGIC_SEQ : Z;
  CRC8_FUNC : list Z -> Z;
  Port_HTTP : Z;
  TcpFlag_SYN : Z;
  TcpFlag_ACK : Z;
  TcpFlag_PSH : Z
}.

(** The magic constant is one byte and the CRC is an 8-bit one. *)
Record info_ok (cfg : session_info) : Prop := mkInfoOk {
  magic_byte : 0 <= MAGIC_SEQ cfg < 256;
  crc_byte : forall bs, 0 <= CRC8_FUNC cfg bs < 256
}.

(** ** Effects *)

Inductive level := DEBUG | INFO | WARNING | ERROR.

Inductive event :=
| Log (lvl : level) (text : string)
| SocketCreate
| SetSockOpt
| Bind (addr : string) (port : Z) (ok : bool)
| SocketClose
| Send (p : packet)
| Sniff (timeout : Z) (got : list packet).

Inductive exn := UnicodeEncodeError | OverflowError | IndexError | ValueError.

Inductive outcome (A : Type) :=
| Return (a : A)
| Raise (e : exn).
Arguments Return {A} a.
Arguments Raise {A} e.

(** The fields of the client object that the methods read. *)
Record StegoClient := mkClient {
  _curr_port : Z;
  _clt : string;
  _srv : string;
  _seq : Z
}.

Definition set_curr_port (p : Z) (self : StegoClient) : StegoClient :=
  mkClient p (_clt self) (_srv self) (_seq self).
Definition set_clt (a : string) (self : StegoClient) : StegoClient :=
  mkClient (_curr_port self) a (_srv self) (_seq self).
Definition set_srv (a : string) (self : StegoClient) : StegoClient :=
  mkClient (_curr_port self) (_clt self) a (_seq self).
Definition set_seq (v : Z) (self : StegoClient) : StegoClient :=
  mkClient (_curr_port self) (_clt self) (_srv self) v.

(** A method body: effects performed, the object afterwards, the outcome. *)
Definition M (A : Type) : Type :=
  StegoClient -> list event * StegoClient * outcome A.

Definition ret {A} (a : A) : M A := fun self => ([], self, Return a).

Definition bind {A B} (m : M A) (f : A -> M B) : M B :=
  fun self =>
    match m self with
    | (t1, self1, Return a) =>
        match f a self1 with
        | (t2, self2, r) => (t1 ++ t2, self2, r)
        end
    | (t1, self1, Raise e) => (t1, self1, Raise e)
    end.

Definition raise {A} (e : exn) : M A := fun self => ([], self, Raise e).
Definition emit (e : event) : M unit := fun self => ([e], self, Return tt).
Definition get : M StegoClient := fun self => ([], self, Return self).
Definition modify (f : StegoClient -> StegoClient) : M unit :=
  fun self => ([], f self, Return tt).
Definition lift {A} (e : exn) (o : option A) : M A :=
  match o with Some a => ret a | None => raise e end.

(** Whether [x] fits an unsigned 32-bit field. *)
Definition fits32 (x : Z) : bool := (0 <=? x) && (x <? 2 ^ 32).

(** Whether scapy can build the packet: the sequence and acknowledgment
    numbers go into 32-bit fields.  (The ports and the flags are constants of
    [session_info.py], or drawn from 49152..65534, and are taken to fit
    theirs.) *)
Definition buildable (p : packet) : bool :=
  match tcp_layer p with
  | Some t => fits32 (seq t) && fits32 (ack t)
  | None => true
  end.

(** scapy's [send(pkt)]: the packet is built and put on the wire; a packet
    that cannot be built raises ValueError and nothing is sent. *)
Definition send (p : packet) : M unit :=
  if buildable p then emit (Send p) else raise ValueError.

Declare Scope py_scope.
Delimit Scope py_scope with py.
Notation "x <- m ;; k" := (bind m (fun x => k))
  (at level 61, m at next level, right associativity) : py_scope.
Notation "m ;; k" := (bind m (fun _ => k))
  (at level 61, right associativity) : py_scope.
Local Open Scope py_scope.

Definition events {A} (r : list event * StegoClient * outcome A) : list event :=
  fst (fst r).
Definition final {A} (r : list event * StegoClient * outcome A) : StegoClient :=
  snd (fst r).
Definition result {A} (r : list event * StegoClient * outcome A) : outcome A :=
  snd r.

(** The packets handed to [send], in order. *)
Fixpoint sent (t : list event) : list packet :=
  match t with
  | [] => []
  | Send p :: rest => p :: sent rest
  | _ :: rest => sent rest
  end.

(** What the surroundings decide during one [send_stego_msg]: the random
    draw, whether [bind] succeeds and the packets arriving while the client
    sniffs. *)
Record world := mkWorld {
  draw : Z;
  bind_ok : bool;
  arriving : list packet
}.

(** ** stego_client.py *)

Definition MAX_MSG_SIZE : Z := Z.shiftl 1 16 - 1.
Definition LSB_MASK : Z := Z.lnot 1.

Section Client.

Variable cfg : session_info.

Definition _build_init_seq (msg : Py.str) : M (option Z) :=
  bs <- lift UnicodeEncodeError (Py.encode_utf8 msg) ;;
  let msg_len_in_bits := Py.len bs * BYTE_LEN_IN_BITS in
  emit (Log INFO "Preparing to transmit message") ;;
  if msg_len_in_bits >? MAX_MSG_SIZE then
    emit (Log WARNING "Message is too long for one transmission. Aborting...") ;;
    ret None
  else
    let magic_masked :=
      Z.shiftl (MAGIC_SEQ cfg) (MSG_LEN_BYTE * BYTE_LEN_IN_BITS) in
    lift OverflowError (Py.int2ba magic_masked) ;;
    lift OverflowError (Py.int2ba (MAGIC_SEQ cfg)) ;;
    emit (Log DEBUG "Magic converted") ;;
    let base_seq := Z.lor magic_masked msg_len_in_bits in
    prefix <- lift OverflowError
                (Py.to_bytes base_seq (MSG_LEN_BYTE + MAGIC_LEN_BYTE)) ;;
    let crc_int := CRC8_FUNC cfg prefix in
    lift OverflowError (Py.int2ba crc_int) ;;
    emit (Log DEBUG "CRC") ;;
    let full_seq :=
      Z.lor (Z.shiftl base_seq (CRC_LEN_BYTE * BYTE_LEN_IN_BITS)) crc_int in
    lift OverflowError (Py.int2ba full_seq) ;;
    emit (Log DEBUG "Full seq") ;;
    ret (Some full_seq).

Definition is_synack_reply (self : StegoClient) (p : packet) : bool :=
  match tcp_layer p, ip_layer p with
  | Some t, Some i =>
      String.eqb (src i) (_srv self)
      && String.eqb (dst i) (_clt self)
      && (sport t =? Port_HTTP cfg)
      && (dport t =? _curr_port self)
      && (flags t =? Z.lor (TcpFlag_SYN cfg) (TcpFlag_ACK cfg))
      && (ack t =? _seq self + 1)
  | _, _ => false
  end.

Definition _receive_init_syn_ack (w : world) : M bool :=
  let timeout := 3 in
  self <- get ;;
  let response := sniff (is_synack_reply self) 1 (arriving w) in
  emit (Sniff timeout response) ;;
  match response with
  | pkt :: _ =>
      t <- lift IndexError (tcp_layer pkt) ;;
      emit (Log DEBUG "Got SYN-ACK") ;;
      modify (fun self => set_seq (_seq self + 1) self) ;;
      self <- get ;;
      let tcp_l := mkTCP (_curr_port self) (Port_HTTP cfg) (_seq self)
                     (seq t + 1) (TcpFlag_ACK cfg) in
      let ack_pkt := over (mkIP (_clt self) (_srv self)) tcp_l in
      send ack_pkt ;;
      ret true
  | [] =>
      emit (Log ERROR "ACK from server wasn't received after timeout") ;;
      ret false
  end.

(** One turn of the loop over [enumerate(bits_seq)]: the new value of
    [self._seq]. *)
Definition next_seq (s i bit : Z) : Z :=
  let s := s + i * 2 in
  if bit =? 1 then Z.lor s bit else Z.land s (Z.lnot 1).

(** [for i, bit in enumerate(bits_seq)], from index [i] on. *)
Fixpoint transmit (i : Z) (bits_seq : list Z) : M unit :=
  match bits_seq with
  | [] => ret tt
  | bit :: rest =>
      modify (fun self => set_seq (next_seq (_seq self) i bit) self) ;;
      self <- get ;;
      let tcp_l := mkTCP (_curr_port self) (Port_HTTP cfg) (_seq self) 0
                     (Z.lor (TcpFlag_PSH cfg) (TcpFlag_ACK cfg)) in
      let init_pkt := over (mkIP (_clt self) (_srv self)) tcp_l in
      send init_pkt ;;
      emit (Log DEBUG "Sent bit") ;;
      transmit (i + 1) rest
  end.

Definition send_stego_msg (w : world) (msg : Py.str) (clt_ip srv_ip : string)
  : M unit :=
  modify (set_clt clt_ip) ;;
  modify (set_srv srv_ip) ;;
  modify (set_curr_port (Py.randrange 49152 65535 (draw w))) ;;
  emit SocketCreate ;;
  emit SetSockOpt ;;
  self <- get ;;
  emit (Bind (_clt self) (_curr_port self) (bind_ok w)) ;;
  if bind_ok w then
    emit (Log INFO "Client bound") ;;
    init_seq <- _build_init_seq msg ;;
    match init_seq with
    | None => emit SocketClose
    | Some init_seq =>
        modify (set_seq init_seq) ;;
        self <- get ;;
        let tcp_l := mkTCP (_curr_port self) (Port_HTTP cfg) (_seq self) 0
                       (TcpFlag_SYN cfg) in
        let init_pkt := over (mkIP (_clt self) (_srv self)) tcp_l in
        send init_pkt ;;
        emit (Log INFO "Sent SYN packet with init sequence") ;;
        established <- _receive_init_syn_ack w ;;
        (if established then
           emit (Log INFO "Start transmission!") ;;
           bs <- lift UnicodeEncodeError (Py.encode_utf8 msg) ;;
           transmit 0 (Py.frombytes bs)
         else ret tt) ;;
        emit SocketClose ;;
        emit (Log INFO "Client socket closed")
    end
  else
    emit (Log ERROR "Failed to bind client socket") ;;
    emit SocketClose.

End Client.

(** ** An instance of the parameters, to run the client on *)

Module Demo.

(** CRC-8 with polynomial 0x07 and initial value 0, one bit at a time. *)
Definition crc8_shift (c : Z) : Z :=
  if Z.testbit c 7 then Z.land (Z.lxor (Z.shiftl c 1) 0x07) 0xFF
  else Z.land (Z.shiftl c 1) 0xFF.

Definition crc8_byte (c b : Z) : Z :=
  let c := Z.land (Z.lxor c b) 0xFF in
  crc8_shift (crc8_shift (crc8_shift (crc8_shift
    (crc8_shift (crc8_shift (crc8_shift (crc8_shift c))))))).

Definition crc8 (bs : list Z) : Z := fold_left crc8_byte bs 0.

Definition info : session_info :=
  mkSessionInfo 0xA5 crc8 80 0x02 0x10 0x08.

Definition fresh : StegoClient := mkClient 0 "" "" 0.

Definition hi : Py.str := [0x68; 0x69].

Definition clt : string := "10.0.0.1".
Definition srv : string := "10.0.0.2".

(** The server's SYN-ACK answering a SYN with sequence number [isn] sent
    from port [p]. *)
Definition synack (p isn : Z) : packet :=
  over (mkIP srv clt) (mkTCP 80 p 7000 (isn + 1) 0x12).

(** Surroundings in which the bind succeeds and port 49157 is drawn: one
    where nothing arrives, one where the server answers the SYN of [hi]. *)
Definition silent : world := mkWorld 5 true [].
Definition answering : world := mkWorld 5 true [synack 49157 0xA50010F8].

End Demo.

(** * Reasoning about method bodies *)

Definition prepend {A} (t : list event)
    (r : list event * StegoClient * outcome A) : list event * StegoClient * outcome A :=
  (t ++ events r, final r, result r).

Lemma prepend_nil {A} (r : list event * StegoClient * outcome A) :
  prepend [] r = r.
Proof. destruct r as [[t s] o]; reflexivity. Qed.

Lemma events_prepend {A} t (r : list event * StegoClient * outcome A) :
  events (prepend t r) = t ++ events r.
Proof. reflexivity. Qed.

Lemma final_prepend {A} t (r : list event * StegoClient * outcome A) :
  final (prepend t r) = final r.
Proof. reflexivity. Qed.

Lemma result_prepend {A} t (r : list event * StegoClient * outcome A) :
  result (prepend t r) = result r.
Proof. reflexivity. Qed.

Lemma prepend_prepend {A} t u (r : list event * StegoClient * outcome A) :
  prepend t (prepend u r) = prepend (t ++ u) r.
Proof.
  destruct r as [[x s] o]. unfold prepend, events, final, result; cbn [fst snd].
  now rewrite app_assoc.
Qed.

Lemma bind_run {A B} (m : M A) (k : A -> M B) self t self1 a :
  m self = (t, self1, Return a) ->
  bind m k self = prepend t (k a self1).
Proof.
  intros E. unfold bind, prepend. rewrite E.
  destruct (k a self1) as [[t2 s2] r]; reflexivity.
Qed.

Lemma bind_fail {A B} (m : M A) (k : A -> M B) self t self1 e :
  m self = (t, self1, Raise e) ->
  bind m k self = (t, self1, Raise e).
Proof. intros E. unfold bind. now rewrite E. Qed.

Lemma bind_emit {B} e (k : unit -> M B) self :
  bind (emit e) k self = prepend [e] (k tt self).
Proof. now apply bind_run. Qed.

Lemma bind_modify {B} f (k : unit -> M B) self :
  bind (modify f) k self = k tt (f self).
Proof. erewrite bind_run by reflexivity. apply prepend_nil. Qed.

Lemma bind_get {B} (k : StegoClient -> M B) self :
  bind get k self = k self self.
Proof. erewrite bind_run by reflexivity. apply prepend_nil. Qed.

Lemma bind_ret {A B} (a : A) (k : A -> M B) self :
  bind (ret a) k self = k a self.
Proof. erewrite bind_run by reflexivity. apply prepend_nil. Qed.

Lemma bind_lift_some {A B} e (a : A) (k : A -> M B) self :
  bind (lift e (Some a)) k self = k a self.
Proof. apply bind_ret. Qed.

Lemma bind_bind {A B C} (m : M A) (f : A -> M B) (g : B -> M C) self :
  bind (bind m f) g self = bind m (fun a => bind (f a) g) self.
Proof.
  unfold bind. destruct (m self) as [[t1 s1] [a|e]]; [|reflexivity].
  destruct (f a s1) as [[t2 s2] [b|e]]; [|reflexivity].
  destruct (g b s2) as [[t3 s3] r]. now rewrite app_assoc.
Qed.

Create Rewrite HintDb run.
Lemma bind_send_ok {B} p (k : unit -> M B) self :
  buildable p = true -> bind (send p) k self = prepend [Send p] (k tt self).
Proof. intros H. apply bind_run. unfold send. now rewrite H. Qed.

Lemma bind_send_refused {B} p (k : unit -> M B) self :
  buildable p = false -> bind (send p) k self = ([], self, Raise ValueError).
Proof. intros H. apply bind_fail. unfold send. now rewrite H. Qed.

#[local] Hint Rewrite @bind_bind @bind_emit @bind_modify @bind_get @bind_ret
  @bind_lift_some @prepend_prepend @events_prepend @final_prepend
  @result_prepend : run.

Ltac run := autorewrite with run; cbn [app].

Ltac flat :=
  unfold prepend, ret, raise, events, final, result; cbn [fst snd app];
  reflexivity.

(** ** Bit-level facts *)

Lemma lor_shiftl_add m n L :
  0 <= n -> 0 <= L < 2 ^ n -> Z.lor (Z.shiftl m n) L = m * 2 ^ n + L.
Proof.
  intros Hn HL.
  assert (D : Z.land (Z.shiftl m n) L = 0).
  { apply Z.bits_inj'; intros k Hk. rewrite Z.land_spec, Z.bits_0.
    destruct (Z.lt_ge_cases k n) as [Hlt|Hge].
    - now rewrite Z.shiftl_spec_low.
    - destruct (Z.eq_dec L 0) as [->|NZ]; [now rewrite Z.bits_0, andb_false_r|].
      rewrite (Z.bits_above_log2 L k), andb_false_r; [easy|lia|].
      apply Z.log2_lt_pow2; [lia|].
      apply Z.lt_le_trans with (2 ^ n); [lia|].
      apply Z.pow_le_mono_r; lia. }
  rewrite <- Z.lxor_lor by exact D.
  rewrite <- Z.add_nocarry_lxor by exact D.
  now rewrite Z.shiftl_mul_pow2.
Qed.

Lemma land_255 x : Z.land x 0xFF = x mod 256.
Proof. change 0xFF with (Z.ones 8). now rewrite Z.land_ones. Qed.

(** The three bytes the CRC is computed over. *)
Lemma prefix_bytes m L :
  0 <= m < 256 -> 0 <= L < 65536 ->
  Py.to_bytes (Z.lor (Z.shiftl m (MSG_LEN_BYTE * BYTE_LEN_IN_BITS)) L)
              (MSG_LEN_BYTE + MAGIC_LEN_BYTE)
  = Some [m; Z.shiftr L 8; Z.land L 0xFF].
Proof.
  intros Hm HL.
  change (MSG_LEN_BYTE * BYTE_LEN_IN_BITS) with 16.
  change (MSG_LEN_BYTE + MAGIC_LEN_BYTE) with 3.
  rewrite lor_shiftl_add by (change (2 ^ 16) with 65536; lia).
  change (2 ^ 16) with 65536.
  unfold Py.to_bytes. change (2 ^ (8 * 3)) with 16777216.
  replace ((0 <=? m * 65536 + L) && (m * 65536 + L <? 16777216)) with true
    by (symmetry; apply andb_true_iff; split; [apply Z.leb_le|apply Z.ltb_lt]; lia).
  change (Z.to_nat 3) with 3%nat. cbn [Py.big_endian Z.of_nat].
  change (8 * Z.of_nat 2) with 16. change (8 * Z.of_nat 1) with 8.
  change (8 * Z.of_nat 0) with 0.
  rewrite !land_255, !Z.shiftr_div_pow2 by lia.
  change (2 ^ 16) with 65536. change (2 ^ 8) with 256. change (2 ^ 0) with 1.
  f_equal. f_equal; [|f_equal; [|f_equal]].
  - Z.div_mod_to_equations; lia.
  - Z.div_mod_to_equations; lia.
  - Z.div_mod_to_equations; lia.
Qed.

(** ** The header *)

(** The wire layout in the words of the specification: magic, then the
    16-bit bit count, then the checksum of the three bytes before it. *)
Definition wire_isn (cfg : session_info) (L : Z) : Z :=
  Z.lor (Z.lor (Z.shiftl (MAGIC_SEQ cfg) 24) (Z.shiftl L 8))
        (CRC8_FUNC cfg [MAGIC_SEQ cfg; Z.shiftr L 8; Z.land L 0xFF]).

Definition accepted_log : list event :=
  [Log INFO "Preparing to transmit message"; Log DEBUG "Magic converted";
   Log DEBUG "CRC"; Log DEBUG "Full seq"].

Definition rejected_log : list event :=
  [Log INFO "Preparing to transmit message";
   Log WARNING "Message is too long for one transmission. Aborting..."].

Lemma int2ba_some x : 0 <= x -> exists bits, Py.int2ba x = Some bits.
Proof. intros H. destruct x; [eexists; reflexivity..|lia]. Qed.

Lemma int2ba_none x : x < 0 -> Py.int2ba x = None.
Proof. intros H. destruct x; [lia..|reflexivity]. Qed.

(** Discharges one [int2ba] call on a value that is not negative. *)
Ltac pass_int2ba :=
  match goal with
  | |- context [Py.int2ba ?x] =>
      let bits := fresh "bits" in
      let H := fresh "H" in
      destruct (int2ba_some x) as [bits H]; [|rewrite H; run]
  end.

Lemma build_init_seq_accepts cfg msg bs self :
  info_ok cfg ->
  Py.encode_utf8 msg = Some bs ->
  Py.len bs * 8 <= 65535 ->
  _build_init_seq cfg msg self
  = (accepted_log, self, Return (Some (wire_isn cfg (Py.len bs * 8)))).
Proof.
  intros [Hm Hc] E HL. unfold _build_init_seq. rewrite E. run. cbv beta.
  change BYTE_LEN_IN_BITS with 8. change MAX_MSG_SIZE with 65535.
  assert (G : (Py.len bs * 8 >? 65535) = false).
  { rewrite Z.gtb_ltb. apply Z.ltb_ge. exact HL. }
  assert (HL0 : 0 <= Py.len bs * 8 < 65536) by (unfold Py.len in *; lia).
  rewrite G. run.
  pass_int2ba; [apply Z.shiftl_nonneg; lia|].
  pass_int2ba; [lia|].
  rewrite prefix_bytes by lia. run.
  pass_int2ba; [apply Hc|].
  pass_int2ba.
  { apply Z.lor_nonneg. split; [|apply Hc].
    apply Z.shiftl_nonneg, Z.lor_nonneg. split; [apply Z.shiftl_nonneg|]; lia. }
  unfold prepend, ret, events, final, result, accepted_log, wire_isn.
  cbn [fst snd app]. do 3 f_equal.
  change (MSG_LEN_BYTE * 8) with 16. change (CRC_LEN_BYTE * 8) with 8.
  rewrite Z.shiftl_lor, Z.shiftl_shiftl by lia. reflexivity.
Qed.

Lemma build_init_seq_rejects cfg msg bs self :
  Py.encode_utf8 msg = Some bs ->
  65535 < Py.len bs * 8 ->
  _build_init_seq cfg msg self = (rejected_log, self, Return None).
Proof.
  intros E HL. unfold _build_init_seq. rewrite E. run. cbv beta.
  change BYTE_LEN_IN_BITS with 8. change MAX_MSG_SIZE with 65535.
  assert (G : (Py.len bs * 8 >? 65535) = true).
  { rewrite Z.gtb_ltb. apply Z.ltb_lt. exact HL. }
  rewrite G. run. reflexivity.
Qed.

Lemma wire_isn_range cfg L :
  info_ok cfg -> 0 <= L < 65536 -> 0 <= wire_isn cfg L < 2 ^ 32.
Proof.
  intros [Hm Hc] HL. unfold wire_isn.
  set (c := CRC8_FUNC cfg _). assert (Hcr : 0 <= c < 256) by apply Hc.
  assert (E : Z.lor (Z.shiftl (MAGIC_SEQ cfg) 24) (Z.shiftl L 8)
              = Z.shiftl (Z.lor (Z.shiftl (MAGIC_SEQ cfg) 16) L) 8).
  { rewrite Z.shiftl_lor, Z.shiftl_shiftl by lia. reflexivity. }
  rewrite E, (lor_shiftl_add (MAGIC_SEQ cfg) 16 L)
    by (change (2 ^ 16) with 65536; lia).
  rewrite lor_shiftl_add by (change (2 ^ 8) with 256; lia).
  change (2 ^ 16) with 65536. change (2 ^ 8) with 256.
  change (2 ^ 32) with 4294967296. lia.
Qed.

Lemma wire_isn_sum cfg L :
  info_ok cfg -> 0 <= L < 65536 ->
  wire_isn cfg L
  = MAGIC_SEQ cfg * 16777216 + L * 256
    + CRC8_FUNC cfg [MAGIC_SEQ cfg; Z.shiftr L 8; Z.land L 0xFF].
Proof.
  intros [Hm Hc] HL. unfold wire_isn.
  set (c := CRC8_FUNC cfg _). assert (Hcr : 0 <= c < 256) by apply Hc.
  assert (E : Z.lor (Z.shiftl (MAGIC_SEQ cfg) 24) (Z.shiftl L 8)
              = Z.shiftl (Z.lor (Z.shiftl (MAGIC_SEQ cfg) 16) L) 8).
  { rewrite Z.shiftl_lor, Z.shiftl_shiftl by lia. reflexivity. }
  rewrite E, (lor_shiftl_add (MAGIC_SEQ cfg) 16 L)
    by (change (2 ^ 16) with 65536; lia).
  rewrite lor_shiftl_add by (change (2 ^ 8) with 256; lia).
  change (2 ^ 16) with 65536. change (2 ^ 8) with 256. lia.
Qed.

Lemma wire_isn_length_field cfg L :
  info_ok cfg -> 0 <= L < 65536 ->
  Z.land (Z.shiftr (wire_isn cfg L) 8) 0xFFFF = L.
Proof.
  intros Hok HL. rewrite (wire_isn_sum cfg L Hok HL).
  set (c := CRC8_FUNC cfg _). assert (Hcr : 0 <= c < 256) by apply Hok.
  destruct Hok as [Hm _].
  change 0xFFFF with (Z.ones 16). rewrite Z.land_ones, Z.shiftr_div_pow2 by lia.
  change (2 ^ 8) with 256. change (2 ^ 16) with 65536.
  Z.div_mod_to_equations. lia.
Qed.

Lemma wire_isn_bytes cfg L :
  info_ok cfg -> 0 <= L < 65536 ->
  Py.to_bytes (wire_isn cfg L) 4
  = Some [MAGIC_SEQ cfg; Z.shiftr L 8; Z.land L 0xFF;
          CRC8_FUNC cfg [MAGIC_SEQ cfg; Z.shiftr L 8; Z.land L 0xFF]].
Proof.
  intros Hok HL. pose proof (wire_isn_range cfg L Hok HL) as Hr.
  rewrite (wire_isn_sum cfg L Hok HL) in *.
  set (c := CRC8_FUNC cfg _) in *. assert (Hc : 0 <= c < 256) by apply Hok.
  pose proof (magic_byte cfg Hok) as Hm.
  unfold Py.to_bytes. change (2 ^ (8 * 4)) with (2 ^ 32).
  replace ((0 <=? MAGIC_SEQ cfg * 16777216 + L * 256 + c)
           && (MAGIC_SEQ cfg * 16777216 + L * 256 + c <? 2 ^ 32)) with true
    by (symmetry; apply andb_true_iff; split; [apply Z.leb_le|apply Z.ltb_lt]; lia).
  change (Z.to_nat 4) with 4%nat. cbn [Py.big_endian Z.of_nat].
  change (8 * Z.of_nat 3) with 24. change (8 * Z.of_nat 2) with 16.
  change (8 * Z.of_nat 1) with 8. change (8 * Z.of_nat 0) with 0.
  rewrite !land_255, !Z.shiftr_div_pow2 by lia.
  change (2 ^ 24) with 16777216. change (2 ^ 16) with 65536.
  change (2 ^ 8) with 256. change (2 ^ 0) with 1.
  f_equal. f_equal; [|f_equal; [|f_equal; [|f_equal]]];
    Z.div_mod_to_equations; lia.
Qed.

(** The header plus 1 still fits 32 bits: the bit count is a multiple of 8. *)
Lemma isn_succ_fits cfg (bs : list Z) :
  info_ok cfg -> Py.len bs * 8 <= 65535 ->
  fits32 (wire_isn cfg (Py.len bs * 8)) = true
  /\ fits32 (wire_isn cfg (Py.len bs * 8) + 1) = true.
Proof.
  intros Hok HL.
  assert (HLr : 0 <= Py.len bs * 8 <= 65528) by (unfold Py.len in *; lia).
  rewrite (wire_isn_sum cfg (Py.len bs * 8) Hok ltac:(lia)).
  pose proof (crc_byte cfg Hok [MAGIC_SEQ cfg; Z.shiftr (Py.len bs * 8) 8;
                                Z.land (Py.len bs * 8) 0xFF]) as Hc.
  pose proof (magic_byte cfg Hok) as Hm.
  unfold fits32. change (2 ^ 32) with 4294967296.
  split; apply andb_true_iff; split;
    first [apply Z.leb_le; lia | apply Z.ltb_lt; lia].
Qed.

(** ** The data phase *)

(** The sequence numbers the loop assigns to [self._seq], turn by turn. *)
Fixpoint seq_walk (s i : Z) (bits_seq : list Z) : list Z :=
  match bits_seq with
  | [] => []
  | bit :: rest => next_seq s i bit :: seq_walk (next_seq s i bit) (i + 1) rest
  end.

(** The PSH+ACK packet built in the loop body. *)
Definition data_packet (cfg : session_info) (self : StegoClient) (v : Z) : packet :=
  over (mkIP (_clt self) (_srv self))
       (mkTCP (_curr_port self) (Port_HTTP cfg) v 0
              (Z.lor (TcpFlag_PSH cfg) (TcpFlag_ACK cfg))).

(** The values whose packets reach the wire: the walk up to the first value
    that does not fit 32 bits. *)
Fixpoint sent_walk (vs : list Z) : list Z :=
  match vs with
  | [] => []
  | v :: rest => if fits32 v then v :: sent_walk rest else []
  end.

(** The value [self._seq] holds when the loop ends: the last value, or the
    one whose packet was refused. *)
Fixpoint walk_stop (s : Z) (vs : list Z) : Z :=
  match vs with
  | [] => s
  | v :: rest => if fits32 v then walk_stop v rest else v
  end.

(** The sequence numbers carried by a list of packets. *)
Definition seq_numbers (ps : list packet) : list Z :=
  flat_map (fun p => match tcp_layer p with Some t => [seq t] | None => [] end) ps.

Lemma next_seq_shiftr s i bit :
  Z.shiftr (next_seq s i bit) 1 = Z.shiftr (s + i * 2) 1.
Proof.
  unfold next_seq. destruct (Z.eqb_spec bit 1) as [->|_].
  - rewrite Z.shiftr_lor. change (Z.shiftr 1 1) with 0. apply Z.lor_0_r.
  - rewrite Z.shiftr_land. change (Z.shiftr (Z.lnot 1) 1) with (-1).
    apply Z.land_m1_r.
Qed.

Lemma next_seq_bit0 s i bit :
  Z.testbit (next_seq s i bit) 0 = (bit =? 1).
Proof.
  unfold next_seq. destruct (Z.eqb_spec bit 1) as [->|_].
  - rewrite Z.lor_spec. change (Z.testbit 1 0) with true. apply orb_true_r.
  - rewrite Z.land_spec. change (Z.testbit (Z.lnot 1) 0) with false.
    apply andb_false_r.
Qed.


Lemma next_seq_odd s i bit : Z.odd (next_seq s i bit) = (bit =? 1).
Proof. rewrite <- Z.bit0_odd. apply next_seq_bit0. Qed.

Lemma next_seq_half s i bit : next_seq s i bit / 2 = s / 2 + i.
Proof.
  pose proof (next_seq_shiftr s i bit) as H.
  rewrite !Z.shiftr_div_pow2 in H by lia. change (2 ^ 1) with 2 in H.
  rewrite H. apply Z.div_add. lia.
Qed.

Lemma next_seq_near s i bit :
  s + 2 * i - 1 <= next_seq s i bit <= s + 2 * i + 1.
Proof.
  pose proof (next_seq_half s i bit) as H.
  Z.div_mod_to_equations. lia.
Qed.

Lemma same_high_bits v x :
  v / 2 = x / 2 -> forall k, 0 < k -> Z.testbit v k = Z.testbit x k.
Proof.
  intros H k Hk. replace k with (k - 1 + 1) by lia.
  rewrite <- !Z.shiftr_spec by lia.
  rewrite !Z.shiftr_div_pow2 by lia. change (2 ^ 1) with 2. now rewrite H.
Qed.


Lemma buildable_data cfg self v : buildable (data_packet cfg self v) = fits32 v.
Proof.
  unfold buildable, data_packet, over. cbn [tcp_layer seq ack].
  change (fits32 0) with true. apply andb_true_r.
Qed.

(** What one run of the loop does. *)
Lemma transmit_run cfg bits_seq : forall i self,
  transmit cfg i bits_seq self
  = (flat_map (fun v => [Send (data_packet cfg self v); Log DEBUG "Sent bit"])
       (sent_walk (seq_walk (_seq self) i bits_seq)),
     set_seq (walk_stop (_seq self) (seq_walk (_seq self) i bits_seq)) self,
     if forallb fits32 (seq_walk (_seq self) i bits_seq)
     then Return tt else Raise ValueError).
Proof.
  induction bits_seq as [|bit rest IH]; intros i self.
  - destruct self; reflexivity.
  - cbn [transmit seq_walk flat_map sent_walk walk_stop forallb]. run.
    set (v := next_seq (_seq self) i bit).
    match goal with
    | |- context [send ?p] => change p with (data_packet cfg self v)
    end.
    destruct (fits32 v) eqn:F.
    + rewrite bind_send_ok by (now rewrite buildable_data). run. rewrite IH.
      unfold prepend, events, final, result.
      cbn [fst snd _seq set_seq flat_map app andb]. reflexivity.
    + rewrite bind_send_refused by (now rewrite buildable_data). reflexivity.
Qed.

Lemma sent_data cfg self vs :
  sent (flat_map (fun v => [Send (data_packet cfg self v); Log DEBUG "Sent bit"]) vs)
  = map (data_packet cfg self) vs.
Proof. induction vs as [|v vs IH]; cbn; [reflexivity|now rewrite IH]. Qed.

Lemma sent_app t u : sent (t ++ u) = sent t ++ sent u.
Proof.
  induction t as [|e t IH]; [reflexivity|].
  destruct e; cbn; now rewrite IH.
Qed.

Lemma seq_numbers_data cfg self vs :
  seq_numbers (map (data_packet cfg self) vs) = vs.
Proof.
  unfold seq_numbers. induction vs as [|v vs IH]; [reflexivity|].
  cbn [map flat_map data_packet over tcp_layer seq app]. now rewrite IH.
Qed.

Lemma transmit_sent cfg bits_seq i self :
  sent (events (transmit cfg i bits_seq self))
  = map (data_packet cfg self) (sent_walk (seq_walk (_seq self) i bits_seq)).
Proof. rewrite transmit_run. apply sent_data. Qed.

Lemma transmit_final_seq cfg bits_seq i self :
  _seq (final (transmit cfg i bits_seq self))
  = walk_stop (_seq self) (seq_walk (_seq self) i bits_seq).
Proof. rewrite transmit_run. reflexivity. Qed.

Lemma transmit_returns cfg bits_seq i self :
  result (transmit cfg i bits_seq self) = Return tt
  <-> forallb fits32 (seq_walk (_seq self) i bits_seq) = true.
Proof.
  rewrite transmit_run. cbn [result snd].
  destruct (forallb fits32 _); split; intros H; try reflexivity; discriminate H.
Qed.

Lemma transmit_raises cfg bits_seq i self :
  forallb fits32 (seq_walk (_seq self) i bits_seq) = false ->
  result (transmit cfg i bits_seq self) = Raise ValueError.
Proof. intros H. rewrite transmit_run. cbn [result snd]. now rewrite H. Qed.

(** *** The walk *)

Lemma seq_walk_length bits_seq : forall s i,
  length (seq_walk s i bits_seq) = length bits_seq.
Proof. induction bits_seq; intros; cbn; [reflexivity|now rewrite IHbits_seq]. Qed.



(** Closed form: the halves advance by the triangular numbers. *)
Lemma seq_walk_half bits_seq : forall s i n v,
  nth_error (seq_walk s i bits_seq) n = Some v ->
  2 * (v / 2) = 2 * (s / 2) + 2 * (Z.of_nat n + 1) * i + Z.of_nat n * (Z.of_nat n + 1).
Proof.
  induction bits_seq as [|b rest IH]; intros s i n v H.
  - destruct n; discriminate.
  - destruct n as [|n]; cbn [seq_walk nth_error] in H.
    + injection H as <-. rewrite next_seq_half. cbn [Z.of_nat]. lia.
    + apply IH in H. rewrite next_seq_half in H. lia.
Qed.

Lemma seq_walk_odd bits_seq : forall s i n b,
  nth_error bits_seq n = Some b ->
  exists v, nth_error (seq_walk s i bits_seq) n = Some v /\ Z.odd v = (b =? 1).
Proof.
  induction bits_seq as [|b0 rest IH]; intros s i n b H.
  - destruct n; discriminate.
  - destruct n as [|n]; cbn [seq_walk nth_error] in *.
    + injection H as ->. eexists; split; [reflexivity|apply next_seq_odd].
    + now apply IH.
Qed.

Lemma seq_walk_next bits_seq : forall s i n v v',
  nth_error (seq_walk s i bits_seq) n = Some v ->
  nth_error (seq_walk s i bits_seq) (S n) = Some v' ->
  exists bit, v' = next_seq v (i + Z.of_nat n + 1) bit.
Proof.
  induction bits_seq as [|b rest IH]; intros s i n v v' Hv Hv'.
  - destruct n; discriminate.
  - cbn [seq_walk] in Hv, Hv'. destruct n as [|n].
    + cbn [nth_error] in Hv, Hv'. injection Hv as <-.
      destruct rest as [|b1 rest]; [discriminate|].
      cbn [seq_walk nth_error] in Hv'. injection Hv' as <-.
      exists b1. f_equal. lia.
    + cbn [nth_error] in Hv. change (nth_error (_ :: ?l) (S (S n)))
        with (nth_error l (S n)) in Hv'.
      destruct (IH _ _ _ _ _ Hv Hv') as [bit ->]. exists bit. f_equal. lia.
Qed.

Lemma seq_walk_sorted bits_seq : forall s i,
  0 <= i -> Sorted Z.lt (seq_walk s i bits_seq).
Proof.
  induction bits_seq as [|b rest IH]; intros s i Hi; [constructor|].
  cbn [seq_walk]. constructor; [apply IH; lia|].
  destruct rest as [|b1 rest]; [constructor|].
  cbn [seq_walk]. constructor.
  pose proof (next_seq_near (next_seq s i b) (i + 1) b1). lia.
Qed.



(** *** What is sent of it *)

Lemma sent_walk_all vs : forallb fits32 vs = true -> sent_walk vs = vs.
Proof.
  induction vs as [|v vs IH]; [reflexivity|]. cbn [forallb sent_walk].
  intros H. apply andb_true_iff in H. destruct H as [-> H]. now rewrite IH.
Qed.

Lemma sent_walk_prefix vs : exists k, sent_walk vs = firstn k vs.
Proof.
  induction vs as [|v vs [k IH]]; [exists 0%nat; reflexivity|].
  cbn [sent_walk]. destruct (fits32 v).
  - exists (S k). cbn [firstn]. now rewrite IH.
  - exists 0%nat. reflexivity.
Qed.

Lemma sent_walk_length vs : (length (sent_walk vs) <= length vs)%nat.
Proof.
  destruct (sent_walk_prefix vs) as [k ->]. rewrite length_firstn. lia.
Qed.

Lemma sent_walk_full vs :
  length (sent_walk vs) = length vs <-> forallb fits32 vs = true.
Proof.
  split; [|intros H; now rewrite sent_walk_all].
  induction vs as [|v vs IH]; [reflexivity|]. cbn [sent_walk forallb length].
  destruct (fits32 v); [|discriminate]. cbn [length andb]. intros H.
  apply IH. lia.
Qed.

(** A packet was sent at position [n] exactly when the values up to [n]
    all fit. *)
Lemma sent_walk_nth vs : forall n v,
  nth_error (sent_walk vs) n = Some v ->
  nth_error vs n = Some v /\ forallb fits32 (firstn (S n) vs) = true.
Proof.
  induction vs as [|x vs IH]; intros n v H; [destruct n; discriminate|].
  cbn [sent_walk] in H. destruct (fits32 x) eqn:F; [|destruct n; discriminate].
  destruct n as [|n]; cbn [nth_error] in H.
  - injection H as <-. split; [reflexivity|]. cbn. now rewrite F.
  - destruct (IH _ _ H) as [Hn Hf]. split; [exact Hn|].
    rewrite firstn_cons. cbn [forallb]. now rewrite F.
Qed.

Lemma sent_walk_reach vs : forall n,
  forallb fits32 (firstn (S n) vs) = true ->
  nth_error (sent_walk vs) n = nth_error vs n.
Proof.
  induction vs as [|x vs IH]; intros n H; [reflexivity|].
  rewrite firstn_cons in H. cbn [forallb] in H.
  apply andb_true_iff in H. destruct H as [F H].
  cbn [sent_walk]. rewrite F. destruct n as [|n]; [reflexivity|].
  cbn [nth_error]. now apply IH.
Qed.



Lemma walk_stop_refused vs : forall s,
  forallb fits32 vs = false ->
  fits32 (walk_stop s vs) = false /\ In (walk_stop s vs) vs.
Proof.
  induction vs as [|v vs IH]; intros s H; [discriminate|].
  cbn [forallb] in H. cbn [walk_stop]. destruct (fits32 v) eqn:F.
  - cbn [andb] in H. destruct (IH v H) as [Hf Hi]. split; [exact Hf|now right].
  - split; [exact F|now left].
Qed.


(** From a start that is not negative, the value of turn [n] fits as long
    as the start plus the accumulated advance does. *)
Lemma walk_value_fits bits_seq S n v :
  0 <= S ->
  nth_error (seq_walk S 0 bits_seq) n = Some v ->
  fits32 v = (S + Z.of_nat n * (Z.of_nat n + 1) <? 2 ^ 32).
Proof.
  intros HS Hv. pose proof (seq_walk_half _ _ _ _ _ Hv) as Hh.
  assert (Hi : 0 <= Z.of_nat n * (Z.of_nat n + 1)) by nia.
  unfold fits32. change (2 ^ 32) with 4294967296.
  destruct (Z.ltb_spec (S + Z.of_nat n * (Z.of_nat n + 1)) 4294967296).
  - apply andb_true_iff. split; [apply Z.leb_le|apply Z.ltb_lt];
      Z.div_mod_to_equations; lia.
  - apply andb_false_iff. right. apply Z.ltb_ge.
    Z.div_mod_to_equations. lia.
Qed.

Lemma walk_fits_upto bits_seq S n :
  0 <= S ->
  S + Z.of_nat n * (Z.of_nat n + 1) < 2 ^ 32 ->
  forallb fits32 (firstn (Datatypes.S n) (seq_walk S 0 bits_seq)) = true.
Proof.
  intros HS Hn. apply forallb_forall. intros v Hv.
  apply In_nth_error in Hv. destruct Hv as [k Hk].
  assert (Hlt : (k < Datatypes.S n)%nat).
  { apply Nat.lt_le_trans with (length (firstn (Datatypes.S n) (seq_walk S 0 bits_seq))).
    - apply nth_error_Some. now rewrite Hk.
    - rewrite length_firstn. lia. }
  rewrite nth_error_firstn in Hk.
  destruct (Nat.ltb_spec k (Datatypes.S n)); [|lia].
  rewrite (walk_value_fits bits_seq S k v HS Hk). apply Z.ltb_lt. nia.
Qed.

(** ** The handshake *)

Lemma sniff_one f l :
  sniff f 1 l = [] \/ exists pkt, sniff f 1 l = [pkt] /\ f pkt = true /\ In pkt l.
Proof.
  unfold sniff. destruct (filter f l) as [|pkt rest] eqn:E; [now left|right].
  exists pkt. split; [reflexivity|].
  assert (I : In pkt (filter f l)) by (rewrite E; now left).
  apply filter_In in I. tauto.
Qed.

Lemma synack_has_tcp cfg self p :
  is_synack_reply cfg self p = true -> exists t, tcp_layer p = Some t.
Proof.
  unfold is_synack_reply. destruct (tcp_layer p) as [t|]; [eauto|discriminate].
Qed.

(** The acceptance conditions in the words of the specification. *)
Definition synack_conditions (cfg : session_info) (self : StegoClient)
    (p : packet) : Prop :=
  exists i t,
    ip_layer p = Some i /\ tcp_layer p = Some t
    /\ src i = _srv self
    /\ dst i = _clt self
    /\ sport t = Port_HTTP cfg
    /\ dport t = _curr_port self
    /\ flags t = Z.lor (TcpFlag_SYN cfg) (TcpFlag_ACK cfg)
    /\ ack t = _seq self + 1.

Lemma is_synack_reply_iff cfg self p :
  is_synack_reply cfg self p = true <-> synack_conditions cfg self p.
Proof.
  unfold is_synack_reply, synack_conditions. split.
  - destruct (tcp_layer p) as [t|]; [|discriminate].
    destruct (ip_layer p) as [i|]; [|discriminate].
    rewrite !andb_true_iff, !String.eqb_eq, !Z.eqb_eq.
    intros (((((H1 & H2) & H3) & H4) & H5) & H6).
    exists i, t. repeat split; assumption.
  - intros (i & t & -> & -> & H1 & H2 & H3 & H4 & H5 & H6).
    rewrite !andb_true_iff, !String.eqb_eq, !Z.eqb_eq. repeat split; assumption.
Qed.

Lemma filter_first {A} (f : A -> bool) l : forall x rest,
  filter f l = x :: rest ->
  exists before after,
    l = before ++ x :: after /\ forall y, In y before -> f y = false.
Proof.
  induction l as [|a l IH]; intros x rest H; [discriminate|].
  cbn [filter] in H. destruct (f a) eqn:Fa.
  - injection H as -> _. exists [], l. split; [reflexivity|intros y []].
  - destruct (IH _ _ H) as (before & after & -> & Hb).
    exists (a :: before), after. split; [reflexivity|].
    intros y [<-|Hy]; [exact Fa|now apply Hb].
Qed.

Lemma filter_none {A} (f : A -> bool) l :
  filter f l = [] -> forall y, In y l -> f y = false.
Proof.
  intros H y Hy. destruct (f y) eqn:Fy; [|reflexivity].
  assert (I : In y (filter f l)) by (apply filter_In; now split).
  rewrite H in I. destruct I.
Qed.

Lemma filter_all_false {A} (f : A -> bool) l :
  (forall y, In y l -> f y = false) -> filter f l = [].
Proof.
  induction l as [|a l IH]; intros H; [reflexivity|].
  cbn [filter]. rewrite (H a (or_introl eq_refl)). apply IH.
  intros y Hy. apply H. now right.
Qed.

Lemma sniff_nothing cfg self inbound :
  (forall p, In p inbound -> ~ synack_conditions cfg self p) ->
  sniff (is_synack_reply cfg self) 1 inbound = [].
Proof.
  intros H. unfold sniff. rewrite filter_all_false; [reflexivity|].
  intros p Hp. destruct (is_synack_reply cfg self p) eqn:F; [|reflexivity].
  exfalso. apply (H p Hp). now apply is_synack_reply_iff.
Qed.

Lemma sniff_first cfg self before pkt after :
  (forall p, In p before -> ~ synack_conditions cfg self p) ->
  synack_conditions cfg self pkt ->
  sniff (is_synack_reply cfg self) 1 (before ++ pkt :: after) = [pkt].
Proof.
  intros Hb Hp. unfold sniff. rewrite filter_app.
  rewrite filter_all_false.
  - cbn [app filter]. apply is_synack_reply_iff in Hp. rewrite Hp. reflexivity.
  - intros p Hin. destruct (is_synack_reply cfg self p) eqn:F; [|reflexivity].
    exfalso. apply (Hb p Hin). now apply is_synack_reply_iff.
Qed.

(** The pure ACK that completes the handshake. *)
Definition ack_packet (cfg : session_info) (self : StegoClient) (peer_seq : Z) : packet :=
  over (mkIP (_clt self) (_srv self))
       (mkTCP (_curr_port self) (Port_HTTP cfg) (_seq self + 1) (peer_seq + 1)
              (TcpFlag_ACK cfg)).

Lemma buildable_ack cfg self peer_seq :
  buildable (ack_packet cfg self peer_seq)
  = fits32 (_seq self + 1) && fits32 (peer_seq + 1).
Proof. reflexivity. Qed.

Lemma receive_timeout cfg w self :
  sniff (is_synack_reply cfg self) 1 (arriving w) = [] ->
  _receive_init_syn_ack cfg w self
  = ([Sniff 3 []; Log ERROR "ACK from server wasn't received after timeout"],
     self, Return false).
Proof.
  intros H. unfold _receive_init_syn_ack. run. rewrite H. run. reflexivity.
Qed.

Lemma receive_synack cfg w self pkt t :
  sniff (is_synack_reply cfg self) 1 (arriving w) = [pkt] ->
  tcp_layer pkt = Some t ->
  buildable (ack_packet cfg self (seq t)) = true ->
  _receive_init_syn_ack cfg w self
  = ([Sniff 3 [pkt]; Log DEBUG "Got SYN-ACK"; Send (ack_packet cfg self (seq t))],
     set_seq (_seq self + 1) self, Return true).
Proof.
  intros H T B. unfold _receive_init_syn_ack. run. rewrite H, T. run.
  match goal with
  | |- context [send ?p] => change p with (ack_packet cfg self (seq t))
  end.
  rewrite bind_send_ok by exact B. run. reflexivity.
Qed.

Lemma receive_refused cfg w self pkt t :
  sniff (is_synack_reply cfg self) 1 (arriving w) = [pkt] ->
  tcp_layer pkt = Some t ->
  buildable (ack_packet cfg self (seq t)) = false ->
  _receive_init_syn_ack cfg w self
  = ([Sniff 3 [pkt]; Log DEBUG "Got SYN-ACK"],
     set_seq (_seq self + 1) self, Raise ValueError).
Proof.
  intros H T B. unfold _receive_init_syn_ack. run. rewrite H, T. run.
  match goal with
  | |- context [send ?p] => change p with (ack_packet cfg self (seq t))
  end.
  rewrite bind_send_refused by exact B. reflexivity.
Qed.

(** ** The whole send operation *)

(** The client object once addresses and port are stored. *)
Definition bound (w : world) (clt_ip srv_ip : string) : StegoClient -> StegoClient :=
  fun self =>
    set_curr_port (Py.randrange 49152 65535 (draw w))
      (set_srv srv_ip (set_clt clt_ip self)).

Definition syn_packet (cfg : session_info) (self : StegoClient) (isn : Z) : packet :=
  over (mkIP (_clt self) (_srv self))
       (mkTCP (_curr_port self) (Port_HTTP cfg) isn 0 (TcpFlag_SYN cfg)).

Definition opening (w : world) (clt_ip : string) : list event :=
  [SocketCreate; SetSockOpt;
   Bind clt_ip (Py.randrange 49152 65535 (draw w)) (bind_ok w)].

Lemma buildable_syn cfg self isn : buildable (syn_packet cfg self isn) = fits32 isn.
Proof.
  unfold buildable, syn_packet, over. cbn [tcp_layer seq ack].
  change (fits32 0) with true. apply andb_true_r.
Qed.

Lemma send_opening cfg w msg clt_ip srv_ip self :
  exists tail,
    events (send_stego_msg cfg w msg clt_ip srv_ip self) = opening w clt_ip ++ tail.
Proof.
  unfold send_stego_msg, opening. run. eexists. reflexivity.
Qed.

Lemma send_bind_failure cfg w msg clt_ip srv_ip self :
  bind_ok w = false ->
  send_stego_msg cfg w msg clt_ip srv_ip self
  = (opening w clt_ip ++ [Log ERROR "Failed to bind client socket"; SocketClose],
     bound w clt_ip srv_ip self, Return tt).
Proof.
  intros Hb. unfold send_stego_msg, opening. run. rewrite Hb. run. reflexivity.
Qed.

Lemma send_too_large cfg w msg bs clt_ip srv_ip self :
  bind_ok w = true ->
  Py.encode_utf8 msg = Some bs ->
  65535 < Py.len bs * 8 ->
  send_stego_msg cfg w msg clt_ip srv_ip self
  = (opening w clt_ip ++ Log INFO "Client bound" :: rejected_log ++ [SocketClose],
     bound w clt_ip srv_ip self, Return tt).
Proof.
  intros Hb E HL. unfold send_stego_msg, opening. run. rewrite Hb. run.
  erewrite bind_run by (eapply build_init_seq_rejects; eassumption).
  run. reflexivity.
Qed.

Lemma send_unencodable cfg w msg clt_ip srv_ip self :
  bind_ok w = true ->
  Py.encode_utf8 msg = None ->
  send_stego_msg cfg w msg clt_ip srv_ip self
  = (opening w clt_ip ++ [Log INFO "Client bound"],
     bound w clt_ip srv_ip self, Raise UnicodeEncodeError).
Proof.
  intros Hb E. unfold send_stego_msg, opening. run. rewrite Hb. run.
  assert (B : forall self0,
             _build_init_seq cfg msg self0 = ([], self0, Raise UnicodeEncodeError)).
  { intros self0. unfold _build_init_seq. rewrite E. cbn [lift].
    now erewrite bind_fail by reflexivity. }
  erewrite bind_fail by apply B. flat.
Qed.

(** The run up to the handshake, for a message that passes the length
    check on a bound socket. *)
Lemma send_to_handshake cfg w msg bs clt_ip srv_ip self :
  info_ok cfg ->
  bind_ok w = true ->
  Py.encode_utf8 msg = Some bs ->
  Py.len bs * 8 <= 65535 ->
  let isn := wire_isn cfg (Py.len bs * 8) in
  let self1 := set_seq isn (bound w clt_ip srv_ip self) in
  send_stego_msg cfg w msg clt_ip srv_ip self
  = prepend (opening w clt_ip ++ Log INFO "Client bound" :: accepted_log
               ++ [Send (syn_packet cfg self1 isn);
                   Log INFO "Sent SYN packet with init sequence"])
      (bind (_receive_init_syn_ack cfg w)
         (fun established =>
            bind (if established
                  then bind (emit (Log INFO "Start transmission!"))
                         (fun _ => bind (lift UnicodeEncodeError (Py.encode_utf8 msg))
                                     (fun bs => transmit cfg 0 (Py.frombytes bs)))
                  else ret tt)
              (fun _ => bind (emit SocketClose)
                          (fun _ => emit (Log INFO "Client socket closed"))))
         self1).
Proof.
  intros Hok Hb E HL isn self1. unfold send_stego_msg, opening.
  run. rewrite Hb. run.
  erewrite bind_run by (eapply build_init_seq_accepts; eassumption).
  run. cbv beta iota. run.
  match goal with
  | |- context [send ?p] => change p with (syn_packet cfg self1 isn)
  end.
  rewrite bind_send_ok
    by (rewrite buildable_syn; apply (isn_succ_fits cfg bs Hok HL)).
  run. unfold accepted_log. cbn [app]. reflexivity.
Qed.

Definition handshake_log (cfg : session_info) (w : world) (clt_ip : string)
    (self1 : StegoClient) (isn : Z) : list event :=
  opening w clt_ip ++ Log INFO "Client bound" :: accepted_log
    ++ [Send (syn_packet cfg self1 isn);
        Log INFO "Sent SYN packet with init sequence"].

(** What is closed and logged after the data phase: nothing, if it raised. *)
Definition closing {A} (o : outcome A) : list event :=
  match o with
  | Return _ => [SocketClose; Log INFO "Client socket closed"]
  | Raise _ => []
  end.

(** Brings both sides of an equation between runs to explicit lists. *)
Ltac even :=
  unfold opening, accepted_log, rejected_log, closing, prepend, ret, raise,
    emit, events, final, result;
  cbn [fst snd app]; rewrite <- ?app_assoc; cbn [app]; rewrite ?app_nil_r;
  reflexivity.

Lemma send_timeout cfg w msg bs clt_ip srv_ip self :
  info_ok cfg ->
  bind_ok w = true ->
  Py.encode_utf8 msg = Some bs ->
  Py.len bs * 8 <= 65535 ->
  let isn := wire_isn cfg (Py.len bs * 8) in
  let self1 := set_seq isn (bound w clt_ip srv_ip self) in
  sniff (is_synack_reply cfg self1) 1 (arriving w) = [] ->
  send_stego_msg cfg w msg clt_ip srv_ip self
  = (opening w clt_ip ++ Log INFO "Client bound" :: accepted_log
       ++ [Send (syn_packet cfg self1 isn);
           Log INFO "Sent SYN packet with init sequence";
           Sniff 3 [];
           Log ERROR "ACK from server wasn't received after timeout";
           SocketClose; Log INFO "Client socket closed"],
     self1, Return tt).
Proof.
  intros Hok Hb E HL isn self1 Hs.
  rewrite (send_to_handshake cfg w msg bs clt_ip srv_ip self Hok Hb E HL).
  erewrite bind_run by (apply receive_timeout; exact Hs).
  run. even.
Qed.

Lemma send_established cfg w msg bs clt_ip srv_ip self pkt t :
  info_ok cfg ->
  bind_ok w = true ->
  Py.encode_utf8 msg = Some bs ->
  Py.len bs * 8 <= 65535 ->
  let isn := wire_isn cfg (Py.len bs * 8) in
  let self1 := set_seq isn (bound w clt_ip srv_ip self) in
  let self2 := set_seq (isn + 1) self1 in
  sniff (is_synack_reply cfg self1) 1 (arriving w) = [pkt] ->
  tcp_layer pkt = Some t ->
  fits32 (seq t + 1) = true ->
  let tr := transmit cfg 0 (Py.frombytes bs) self2 in
  send_stego_msg cfg w msg clt_ip srv_ip self
  = (opening w clt_ip ++ Log INFO "Client bound" :: accepted_log
       ++ [Send (syn_packet cfg self1 isn);
           Log INFO "Sent SYN packet with init sequence";
           Sniff 3 [pkt]; Log DEBUG "Got SYN-ACK";
           Send (ack_packet cfg self1 (seq t)); Log INFO "Start transmission!"]
       ++ events tr ++ closing (result tr),
     final tr, result tr).
Proof.
  intros Hok Hb E HL isn self1 self2 Hs T Hack tr.
  rewrite (send_to_handshake cfg w msg bs clt_ip srv_ip self Hok Hb E HL).
  assert (B : buildable (ack_packet cfg self1 (seq t)) = true).
  { rewrite buildable_ack, Hack.
    change (_seq self1) with (wire_isn cfg (Py.len bs * 8)).
    now rewrite (proj2 (isn_succ_fits cfg bs Hok HL)). }
  erewrite bind_run by (eapply receive_synack; [exact Hs|exact T|exact B]).
  cbv beta iota. run. rewrite E. run.
  change (set_seq (_seq self1 + 1) self1) with self2. fold tr.
  destruct tr as [[tt_ s] [[]|e]] eqn:Htr.
  - erewrite bind_run by exact Htr. run. even.
  - erewrite bind_fail by exact Htr. even.
Qed.

Lemma send_ack_refused cfg w msg bs clt_ip srv_ip self pkt t :
  info_ok cfg ->
  bind_ok w = true ->
  Py.encode_utf8 msg = Some bs ->
  Py.len bs * 8 <= 65535 ->
  let isn := wire_isn cfg (Py.len bs * 8) in
  let self1 := set_seq isn (bound w clt_ip srv_ip self) in
  sniff (is_synack_reply cfg self1) 1 (arriving w) = [pkt] ->
  tcp_layer pkt = Some t ->
  fits32 (seq t + 1) = false ->
  send_stego_msg cfg w msg clt_ip srv_ip self
  = (opening w clt_ip ++ Log INFO "Client bound" :: accepted_log
       ++ [Send (syn_packet cfg self1 isn);
           Log INFO "Sent SYN packet with init sequence";
           Sniff 3 [pkt]; Log DEBUG "Got SYN-ACK"],
     set_seq (isn + 1) self1, Raise ValueError).
Proof.
  intros Hok Hb E HL isn self1 Hs T Hack.
  rewrite (send_to_handshake cfg w msg bs clt_ip srv_ip self Hok Hb E HL).
  assert (B : buildable (ack_packet cfg self1 (seq t)) = false).
  { rewrite buildable_ack, Hack. apply andb_false_r. }
  erewrite bind_fail by (eapply receive_refused; [exact Hs|exact T|exact B]).
  even.
Qed.

(** ** Sockets held *)

(** Whether the client holds an open socket after the events [t]. *)
Fixpoint socket_held (t : list event) (held : bool) : bool :=
  match t with
  | [] => held
  | SocketCreate :: rest => socket_held rest true
  | SocketClose :: rest => socket_held rest false
  | _ :: rest => socket_held rest held
  end.

(** Event [a] happens before event [b] in [t]. *)
Definition precedes (a b : event) (t : list event) : Prop :=
  exists t1 t2 t3, t = t1 ++ a :: t2 ++ b :: t3.

Definition too_long_warning : event :=
  Log WARNING "Message is too long for one transmission. Aborting...".

Lemma socket_held_app t u h :
  socket_held (t ++ u) h = socket_held u (socket_held t h).
Proof.
  revert h; induction t as [|e t IH]; intros h; [reflexivity|].
  destruct e; cbn [app socket_held]; apply IH.
Qed.

Lemma socket_held_transmit cfg bits_seq i self h :
  socket_held (events (transmit cfg i bits_seq self)) h = h.
Proof.
  rewrite transmit_run. cbn [events fst].
  induction (sent_walk (seq_walk (_seq self) i bits_seq)) as [|v vs IH];
    [reflexivity|].
  cbn [flat_map app socket_held]. exact IH.
Qed.

(** ** What a send operation hands to the transport *)

Lemma send_timeout_sent cfg w msg bs clt_ip srv_ip self :
  info_ok cfg ->
  bind_ok w = true ->
  Py.encode_utf8 msg = Some bs ->
  Py.len bs * 8 <= 65535 ->
  let isn := wire_isn cfg (Py.len bs * 8) in
  let self1 := set_seq isn (bound w clt_ip srv_ip self) in
  sniff (is_synack_reply cfg self1) 1 (arriving w) = [] ->
  sent (events (send_stego_msg cfg w msg clt_ip srv_ip self))
  = [syn_packet cfg self1 isn].
Proof.
  intros Hok Hb E HL isn self1 Hs.
  rewrite (send_timeout cfg w msg bs clt_ip srv_ip self Hok Hb E HL Hs).
  reflexivity.
Qed.

Lemma sent_closing {A} (o : outcome A) : sent (closing o) = [].
Proof. destruct o; reflexivity. Qed.

Lemma send_established_sent cfg w msg bs clt_ip srv_ip self pkt t :
  info_ok cfg ->
  bind_ok w = true ->
  Py.encode_utf8 msg = Some bs ->
  Py.len bs * 8 <= 65535 ->
  let isn := wire_isn cfg (Py.len bs * 8) in
  let self1 := set_seq isn (bound w clt_ip srv_ip self) in
  sniff (is_synack_reply cfg self1) 1 (arriving w) = [pkt] ->
  tcp_layer pkt = Some t ->
  fits32 (seq t + 1) = true ->
  sent (events (send_stego_msg cfg w msg clt_ip srv_ip self))
  = syn_packet cfg self1 isn :: ack_packet cfg self1 (seq t)
      :: map (data_packet cfg self1)
           (sent_walk (seq_walk (isn + 1) 0 (Py.frombytes bs))).
Proof.
  intros Hok Hb E HL isn self1 Hs T Hack.
  rewrite (send_established cfg w msg bs clt_ip srv_ip self pkt t
             Hok Hb E HL Hs T Hack).
  unfold opening, accepted_log. cbn [events fst app sent].
  rewrite sent_app, sent_closing, app_nil_r, transmit_sent. reflexivity.
Qed.

Lemma send_established_parts cfg w msg bs clt_ip srv_ip self pkt t :
  info_ok cfg ->
  bind_ok w = true ->
  Py.encode_utf8 msg = Some bs ->
  Py.len bs * 8 <= 65535 ->
  let isn := wire_isn cfg (Py.len bs * 8) in
  let self1 := set_seq isn (bound w clt_ip srv_ip self) in
  sniff (is_synack_reply cfg self1) 1 (arriving w) = [pkt] ->
  tcp_layer pkt = Some t ->
  fits32 (seq t + 1) = true ->
  let tr := transmit cfg 0 (Py.frombytes bs) (set_seq (isn + 1) self1) in
  let r := send_stego_msg cfg w msg clt_ip srv_ip self in
  result r = result tr
  /\ final r = final tr
  /\ socket_held (events r) false = socket_held (closing (result tr)) true.
Proof.
  intros Hok Hb E HL isn self1 Hs T Hack tr r. subst r.
  rewrite (send_established cfg w msg bs clt_ip srv_ip self pkt t
             Hok Hb E HL Hs T Hack).
  split; [reflexivity|]. split; [reflexivity|].
  unfold opening, accepted_log. cbn [events fst app socket_held].
  fold tr. rewrite socket_held_app. f_equal. apply socket_held_transmit.
Qed.

Lemma send_ack_refused_sent cfg w msg bs clt_ip srv_ip self pkt t :
  info_ok cfg ->
  bind_ok w = true ->
  Py.encode_utf8 msg = Some bs ->
  Py.len bs * 8 <= 65535 ->
  let isn := wire_isn cfg (Py.len bs * 8) in
  let self1 := set_seq isn (bound w clt_ip srv_ip self) in
  sniff (is_synack_reply cfg self1) 1 (arriving w) = [pkt] ->
  tcp_layer pkt = Some t ->
  fits32 (seq t + 1) = false ->
  sent (events (send_stego_msg cfg w msg clt_ip srv_ip self))
  = [syn_packet cfg self1 isn].
Proof.
  intros Hok Hb E HL isn self1 Hs T Hack.
  rewrite (send_ack_refused cfg w msg bs clt_ip srv_ip self pkt t
             Hok Hb E HL Hs T Hack).
  reflexivity.
Qed.

Lemma send_accepted_syn_first cfg w msg bs clt_ip srv_ip self :
  info_ok cfg ->
  bind_ok w = true ->
  Py.encode_utf8 msg = Some bs ->
  Py.len bs * 8 <= 65535 ->
  let isn := wire_isn cfg (Py.len bs * 8) in
  exists rest,
    sent (events (send_stego_msg cfg w msg clt_ip srv_ip self))
    = syn_packet cfg (bound w clt_ip srv_ip self) isn :: rest.
Proof.
  intros Hok Hb E HL isn.
  set (self1 := set_seq isn (bound w clt_ip srv_ip self)).
  destruct (sniff_one (is_synack_reply cfg self1) (arriving w))
    as [Hs|(pkt & Hs & Hp & _)].
  - exists []. exact (send_timeout_sent cfg w msg bs clt_ip srv_ip self Hok Hb E HL Hs).
  - destruct (synack_has_tcp cfg self1 pkt Hp) as [t T].
    destruct (fits32 (seq t + 1)) eqn:Hack; eexists.
    + exact (send_established_sent cfg w msg bs clt_ip srv_ip self pkt t
               Hok Hb E HL Hs T Hack).
    + exact (send_ack_refused_sent cfg w msg bs clt_ip srv_ip self pkt t
               Hok Hb E HL Hs T Hack).
Qed.

Lemma send_rejected cfg w msg bs clt_ip srv_ip self :
  Py.encode_utf8 msg = Some bs ->
  65535 < Py.len bs * 8 ->
  events (send_stego_msg cfg w msg clt_ip srv_ip self)
  = opening w clt_ip
      ++ (if bind_ok w
          then Log INFO "Client bound" :: rejected_log ++ [SocketClose]
          else [Log ERROR "Failed to bind client socket"; SocketClose])
  /\ result (send_stego_msg cfg w msg clt_ip srv_ip self) = Return tt.
Proof.
  intros E HL. destruct (bind_ok w) eqn:Hb.
  - now rewrite (send_too_large cfg w msg bs clt_ip srv_ip self Hb E HL).
  - now rewrite (send_bind_failure cfg w msg clt_ip srv_ip self Hb).
Qed.

Lemma sent_opening w clt_ip t : sent (opening w clt_ip ++ t) = sent t.
Proof. reflexivity. Qed.

(** ASCII text encodes to itself. *)
Lemma encode_ascii_repeat c n :
  0 <= c < 128 -> Py.encode_utf8 (repeat c n) = Some (repeat c n).
Proof.
  intros Hc. induction n as [|n IH]; [reflexivity|].
  cbn [repeat Py.encode_utf8]. rewrite IH. unfold Py.encode_code_point.
  destruct (Z.ltb_spec c 0); [lia|]. destruct (Z.ltb_spec c 128); [|lia].
  reflexivity.
Qed.

(** A message of [n] letters "a". *)
Definition letters (n : Z) : Py.str := repeat 0x61 (Z.to_nat n).

Lemma letters_encode n : Py.encode_utf8 (letters n) = Some (letters n).
Proof. apply encode_ascii_repeat. lia. Qed.

Lemma letters_len n : 0 <= n -> Py.len (letters n) = n.
Proof.
  intros H. unfold Py.len, letters. rewrite repeat_length. now apply Z2Nat.id.
Qed.

(** The five ways a send operation can go up to the handshake, the last
    one with or without an acknowledgment number that fits. *)
Lemma send_cases cfg w msg clt_ip srv_ip self :
  let self1 L := set_seq (wire_isn cfg L) (bound w clt_ip srv_ip self) in
  bind_ok w = false
  \/ (bind_ok w = true /\ Py.encode_utf8 msg = None)
  \/ (exists bs, bind_ok w = true /\ Py.encode_utf8 msg = Some bs
                 /\ 65535 < Py.len bs * 8)
  \/ (exists bs, bind_ok w = true /\ Py.encode_utf8 msg = Some bs
                 /\ Py.len bs * 8 <= 65535
                 /\ sniff (is_synack_reply cfg (self1 (Py.len bs * 8))) 1 (arriving w) = [])
  \/ (exists bs pkt t, bind_ok w = true /\ Py.encode_utf8 msg = Some bs
                 /\ Py.len bs * 8 <= 65535
                 /\ sniff (is_synack_reply cfg (self1 (Py.len bs * 8))) 1 (arriving w) = [pkt]
                 /\ tcp_layer pkt = Some t).
Proof.
  intros self1. destruct (bind_ok w); [right|now left].
  destruct (Py.encode_utf8 msg) as [bs|]; [right|now left].
  destruct (Z.lt_ge_cases 65535 (Py.len bs * 8)) as [HL|HL].
  { left. exists bs. auto. }
  right.
  destruct (sniff_one (is_synack_reply cfg (self1 (Py.len bs * 8))) (arriving w))
    as [Hs|(pkt & Hs & Hp & _)].
  - left. exists bs. auto.
  - right. destruct (synack_has_tcp cfg _ pkt Hp) as [t T].
    exists bs, pkt, t. auto.
Qed.

(** ** The demonstration parameters are admissible *)

Lemma crc8_shift_range c : 0 <= Demo.crc8_shift c < 256.
Proof.
  unfold Demo.crc8_shift. destruct (Z.testbit c 7);
    rewrite land_255; apply Z.mod_pos_bound; lia.
Qed.

Lemma crc8_fold_range bs : forall c,
  0 <= c < 256 -> 0 <= fold_left Demo.crc8_byte bs c < 256.
Proof.
  induction bs as [|b bs IH]; intros c Hc; [exact Hc|].
  cbn [fold_left]. apply IH. unfold Demo.crc8_byte. apply crc8_shift_range.
Qed.

Lemma demo_info_ok : info_ok Demo.info.
Proof.
  split; cbn [MAGIC_SEQ CRC8_FUNC Demo.info]; [lia|].
  intros bs. apply crc8_fold_range. lia.
Qed.

(** The SYN-ACK that answers the SYN of a message of [L] bits sent from
    port 49157. *)
Definition reply_tcp (cfg : session_info) (L : Z) : TCP :=
  mkTCP (Port_HTTP cfg) 49157 0 (wire_isn cfg L + 1)
        (Z.lor (TcpFlag_SYN cfg) (TcpFlag_ACK cfg)).

Definition reply (cfg : session_info) (L : Z) : packet :=
  over (mkIP Demo.srv Demo.clt) (reply_tcp cfg L).

Lemma reply_sniffed cfg L self :
  sniff (is_synack_reply cfg
           (set_seq (wire_isn cfg L)
              (bound (mkWorld 5 true [reply cfg L]) Demo.clt Demo.srv self)))
        1 [reply cfg L]
  = [reply cfg L].
Proof.
  unfold sniff. cbn [filter].
  replace (is_synack_reply _ _ (reply cfg L)) with true; [reflexivity|].
  symmetry. apply is_synack_reply_iff. do 2 eexists.
  split; [reflexivity|]. split; [reflexivity|]. repeat split.
Qed.

(** ** Bits *)

Definition lsb (v : Z) : Z := Z.b2z (Z.testbit v 0).

Lemma byte_bits_binary b : Forall (fun x => x = 0 \/ x = 1) (Py.byte_bits b).
Proof.
  unfold Py.byte_bits. apply Forall_forall. intros x Hx.
  apply in_map_iff in Hx. destruct Hx as (k & <- & _).
  destruct (Z.testbit b k); auto.
Qed.

Lemma frombytes_binary bs : Forall (fun x => x = 0 \/ x = 1) (Py.frombytes bs).
Proof.
  induction bs as [|b bs IH]; [constructor|].
  unfold Py.frombytes. cbn [flat_map]. apply Forall_app. split;
    [apply byte_bits_binary|exact IH].
Qed.

(** The parities of the sequence numbers spell the bits. *)
Lemma seq_walk_lsb bits_seq : forall s i,
  Forall (fun x => x = 0 \/ x = 1) bits_seq ->
  map lsb (seq_walk s i bits_seq) = bits_seq.
Proof.
  induction bits_seq as [|b rest IH]; intros s i H; [reflexivity|].
  inversion H as [|? ? Hb Hrest]; subst. cbn [seq_walk map].
  rewrite (IH _ _ Hrest). f_equal. unfold lsb. rewrite next_seq_bit0.
  destruct Hb as [->| ->]; reflexivity.
Qed.

Lemma byte_bits_nth b j :
  (j < 8)%nat ->
  nth_error (Py.byte_bits b) j = Some (Z.b2z (Z.testbit b (7 - Z.of_nat j))).
Proof.
  intros H. do 8 (destruct j as [|j]; [reflexivity|]). lia.
Qed.

Lemma frombytes_nth bs : forall k j b,
  nth_error bs k = Some b -> (j < 8)%nat ->
  nth_error (Py.frombytes bs) (8 * k + j) = Some (Z.b2z (Z.testbit b (7 - Z.of_nat j))).
Proof.
  induction bs as [|a bs IH]; intros k j b H Hj; [destruct k; discriminate|].
  unfold Py.frombytes. cbn [flat_map]. destruct k as [|k].
  - injection H as ->. rewrite Nat.mul_0_r, Nat.add_0_l.
    rewrite nth_error_app1 by (cbn; lia). now apply byte_bits_nth.
  - cbn [nth_error] in H.
    rewrite nth_error_app2 by (cbn [Py.byte_bits map length]; lia).
    replace (8 * S k + j - length (Py.byte_bits a))%nat with (8 * k + j)%nat
      by (cbn [Py.byte_bits map length]; lia).
    now apply IH.
Qed.

Lemma frombytes_length bs : length (Py.frombytes bs) = (8 * length bs)%nat.
Proof.
  unfold Py.frombytes. induction bs as [|b bs IH]; [reflexivity|].
  cbn [flat_map]. rewrite length_app, IH. cbn [Py.byte_bits map length]. lia.
Qed.

Lemma map_firstn {A B} (f : A -> B) l : forall n,
  map f (firstn n l) = firstn n (map f l).
Proof.
  induction l as [|a l IH]; intros [|n]; try reflexivity.
  cbn [firstn map]. now rewrite IH.
Qed.

(** The low bits of the packets sent are a prefix of the bits: all of them
    when every value fits. *)
Lemma sent_walk_lsb bits_seq s i :
  Forall (fun x => x = 0 \/ x = 1) bits_seq ->
  exists k,
    map lsb (sent_walk (seq_walk s i bits_seq)) = firstn k bits_seq
    /\ (forallb fits32 (seq_walk s i bits_seq) = true ->
        map lsb (sent_walk (seq_walk s i bits_seq)) = bits_seq).
Proof.
  intros H. destruct (sent_walk_prefix (seq_walk s i bits_seq)) as [k Hk].
  exists k. split.
  - rewrite Hk, map_firstn, (seq_walk_lsb _ _ _ H). reflexivity.
  - intros F. rewrite (sent_walk_all _ F). exact (seq_walk_lsb _ _ _ H).
Qed.

(** * The specification, statement by statement *)

(** C1: for a message whose UTF-8 encoding has [L <= 65535] bits,
    [_build_init_seq] returns [(magic << 24) | (L << 8) | checksum]; the
    checksum is the CRC of exactly the three bytes magic, high byte of [L],
    low byte of [L] (the big-endian bytes of the 24-bit prefix), and the
    value fits 32 bits. *)
Theorem C1_initial_sequence_layout cfg msg bs self :
  info_ok cfg ->
  Py.encode_utf8 msg = Some bs ->
  Py.len bs * 8 <= 65535 ->
  let L := Py.len bs * 8 in
  let prefix := [MAGIC_SEQ cfg; Z.shiftr L 8; Z.land L 0xFF] in
  let checksum := CRC8_FUNC cfg prefix in
  let isn := Z.lor (Z.lor (Z.shiftl (MAGIC_SEQ cfg) 24) (Z.shiftl L 8)) checksum in
  result (_build_init_seq cfg msg self) = Return (Some isn)
  /\ Py.to_bytes (Z.lor (Z.shiftl (MAGIC_SEQ cfg) 16) L) 3 = Some prefix
  /\ 0 <= checksum < 256
  /\ 0 <= isn < 2 ^ 32.
Proof.
  intros Hok E HL L prefix checksum isn.
  assert (HL' : 0 <= L < 65536) by (unfold L, Py.len in *; lia).
  split; [|split; [|split]].
  - rewrite (build_init_seq_accepts cfg msg bs self Hok E HL). reflexivity.
  - apply (prefix_bytes (MAGIC_SEQ cfg) L); [apply Hok|exact HL'].
  - apply Hok.
  - apply (wire_isn_range cfg L Hok HL').
Qed.

Lemma C1_initial_sequence_layout_witness :
  info_ok Demo.info
  /\ Py.encode_utf8 Demo.hi = Some [0x68; 0x69]
  /\ Py.len [0x68; 0x69] * 8 <= 65535
  /\ result (_build_init_seq Demo.info Demo.hi Demo.fresh) = Return (Some 0xA50010F8).
Proof.
  assert (H16 : Py.len [0x68; 0x69] * 8 <= 65535) by (vm_compute; discriminate).
  split; [exact demo_info_ok|]. split; [reflexivity|]. split; [exact H16|].
  exact (proj1 (C1_initial_sequence_layout Demo.info Demo.hi [0x68; 0x69]
                  Demo.fresh demo_info_ok eq_refl H16)).
Defined.



Lemma forallb_refuted vs n v :
  nth_error vs n = Some v -> fits32 v = false -> forallb fits32 vs = false.
Proof.
  intros Hn Hv. destruct (forallb fits32 vs) eqn:F; [|reflexivity].
  rewrite forallb_forall in F. rewrite (F v (nth_error_In _ _ Hn)) in Hv.
  discriminate.
Qed.



(** C3 as the specification words it: the sequence number sent for the bit
    at index [i] has the parity of the bit and agrees with [S + i * 2] on
    every bit but the lowest, [S] being the session sequence number when the
    bit transmission starts. *)
Definition lsb_rule_as_stated (cfg : session_info) : Prop :=
  forall self bits_seq n bit,
    nth_error bits_seq n = Some bit ->
    exists v,
      nth_error (sent (events (transmit cfg 0 bits_seq self))) n
        = Some (data_packet cfg self v)
      /\ Z.odd v = (bit =? 1)
      /\ (forall k, 0 < k -> Z.testbit v k = Z.testbit (_seq self + Z.of_nat n * 2) k).

(** C3 fails from the third bit on: the advances add up.  Starting from 0,
    three 0-bits are sent with sequence numbers 0, 2 and 6, and 6 differs from
    [0 + 2 * 2] in bit 1. *)
Lemma C3_lsb_rule_as_stated_fails :
  seq_numbers (sent (events (transmit Demo.info 0 [0; 0; 0] Demo.fresh))) = [0; 2; 6]
  /\ Z.testbit 6 1 <> Z.testbit (_seq Demo.fresh + 2 * 2) 1
  /\ ~ (exists cfg, lsb_rule_as_stated cfg).
Proof.
  split; [reflexivity|]. split; [discriminate|].
  intros [cfg C].
  destruct (C Demo.fresh [0; 0; 0] 2%nat 0 eq_refl) as (v & Hv & _ & Hk).
  rewrite transmit_sent in Hv. cbn in Hv. injection Hv as <-.
  specialize (Hk 1 ltac:(lia)). discriminate Hk.
Qed.

(** C3, amended: for a starting sequence number [S] that is not negative
    and an index [i] with [S + i * (i + 1)] below [2^32], the sequence number
    sent for the bit at index [i] has the parity of the bit and agrees with
    [S + i * (i + 1)] on every bit but the lowest, because the turns [0..i]
    have added [0 + 2 + ... + 2 * i]. *)
Theorem C3_sequence_is_start_plus_accumulated_advance cfg self bits_seq n bit :
  nth_error bits_seq n = Some bit ->
  let S := _seq self in
  let i := Z.of_nat n in
  0 <= S ->
  S + i * (i + 1) < 2 ^ 32 ->
  exists v,
    nth_error (sent (events (transmit cfg 0 bits_seq self))) n
      = Some (data_packet cfg self v)
    /\ Z.odd v = (bit =? 1)
    /\ (forall k, 0 < k -> Z.testbit v k = Z.testbit (S + i * (i + 1)) k).
Proof.
  intros H S i HS Hfit.
  destruct (seq_walk_odd bits_seq S 0 n bit H) as (v & Hv & Hodd).
  exists v. split; [|split].
  - rewrite transmit_sent, nth_error_map. fold S.
    rewrite sent_walk_reach by (now apply walk_fits_upto).
    now rewrite Hv.
  - exact Hodd.
  - apply same_high_bits.
    pose proof (seq_walk_half bits_seq S 0 n v Hv) as E. fold i in E.
    replace (S + i * (i + 1)) with (S + (v / 2 - S / 2) * 2) by lia.
    rewrite Z.div_add by lia. lia.
Qed.

Lemma C3_sequence_is_start_plus_accumulated_advance_witness :
  nth_error [0; 0; 0] 2 = Some 0
  /\ 0 <= _seq Demo.fresh
  /\ _seq Demo.fresh + 2 * (2 + 1) < 2 ^ 32
  /\ exists v,
       nth_error (sent (events (transmit Demo.info 0 [0; 0; 0] Demo.fresh))) 2
         = Some (data_packet Demo.info Demo.fresh v)
       /\ Z.odd v = false
       /\ (forall k, 0 < k -> Z.testbit v k = Z.testbit (0 + 2 * (2 + 1)) k).
Proof.
  assert (H0 : 0 <= _seq Demo.fresh) by (cbn; lia).
  assert (H1 : _seq Demo.fresh + 2 * (2 + 1) < 2 ^ 32) by reflexivity.
  split; [reflexivity|]. split; [exact H0|]. split; [exact H1|].
  exact (C3_sequence_is_start_plus_accumulated_advance
           Demo.info Demo.fresh [0; 0; 0] 2 0 eq_refl H0 H1).
Defined.

(** Finds an event in an explicit list. *)
Ltac find_event :=
  unfold opening, accepted_log; cbn [events fst app In];
  repeat first [left; reflexivity | right].

(** C4: the packet accepted as the handshake SYN-ACK.  The client sends the
    SYN with the header as sequence number and then sniffs with a filter that
    a packet passes exactly when its source is the server address, its
    destination the client address, its source port the service port, its
    destination port the local port, its flags exactly SYN+ACK and its
    acknowledgment number the header plus 1.  The first arriving packet that
    passes is accepted (the handshake goes on with it, and the ACK answering
    it is the second packet sent when its acknowledgment number fits); when
    every arriving packet fails a condition all are ignored, the SYN stays
    the only packet and the timeout path is taken. *)
Theorem C4_synack_accepted_iff_all_fields_match cfg w msg bs clt_ip srv_ip self :
  info_ok cfg ->
  bind_ok w = true ->
  Py.encode_utf8 msg = Some bs ->
  Py.len bs * 8 <= 65535 ->
  let isn := wire_isn cfg (Py.len bs * 8) in
  let self1 := set_seq isn (bound w clt_ip srv_ip self) in
  let r := send_stego_msg cfg w msg clt_ip srv_ip self in
  (hd_error (sent (events r)) = Some (syn_packet cfg self1 isn)
   /\ _srv self1 = srv_ip /\ _clt self1 = clt_ip
   /\ _curr_port self1 = Py.randrange 49152 65535 (draw w)
   /\ _seq self1 = isn)
  /\ (forall p, is_synack_reply cfg self1 p = true <-> synack_conditions cfg self1 p)
  /\ (forall before pkt later t,
        arriving w = before ++ pkt :: later ->
        (forall p, In p before -> ~ synack_conditions cfg self1 p) ->
        synack_conditions cfg self1 pkt ->
        tcp_layer pkt = Some t ->
        In (Sniff 3 [pkt]) (events r)
        /\ In (Log DEBUG "Got SYN-ACK") (events r)
        /\ (fits32 (seq t + 1) = true ->
              nth_error (sent (events r)) 1 = Some (ack_packet cfg self1 (seq t))))
  /\ ((forall p, In p (arriving w) -> ~ synack_conditions cfg self1 p) ->
        In (Sniff 3 []) (events r)
        /\ ~ In (Log DEBUG "Got SYN-ACK") (events r)
        /\ sent (events r) = [syn_packet cfg self1 isn]
        /\ result r = Return tt).
Proof.
  intros Hok Hb E HL isn self1 r. subst r.
  split; [|split; [intros p; apply is_synack_reply_iff|split]].
  - split; [|repeat split].
    destruct (send_accepted_syn_first cfg w msg bs clt_ip srv_ip self Hok Hb E HL)
      as [rest ->]. reflexivity.
  - intros before pkt later t Ha Hbefore Hp T.
    assert (Hs : sniff (is_synack_reply cfg self1) 1 (arriving w) = [pkt])
      by (rewrite Ha; now apply sniff_first).
    destruct (fits32 (seq t + 1)) eqn:Hack.
    + rewrite (send_established_sent cfg w msg bs clt_ip srv_ip self pkt t
                 Hok Hb E HL Hs T Hack).
      rewrite (send_established cfg w msg bs clt_ip srv_ip self pkt t
                 Hok Hb E HL Hs T Hack).
      split; [find_event|]. split; [find_event|]. reflexivity.
    + rewrite (send_ack_refused cfg w msg bs clt_ip srv_ip self pkt t
                 Hok Hb E HL Hs T Hack).
      split; [find_event|]. split; [find_event|]. discriminate.
  - intros Hno.
    rewrite (send_timeout cfg w msg bs clt_ip srv_ip self Hok Hb E HL
               (sniff_nothing cfg self1 (arriving w) Hno)).
    split; [find_event|]. split; [|split; reflexivity].
    unfold opening, accepted_log. cbn [events fst app In]. intros I.
    repeat (destruct I as [I|I]; [discriminate I|]). exact I.
Qed.

Lemma C4_synack_accepted_iff_all_fields_match_witness :
  info_ok Demo.info
  /\ bind_ok Demo.answering = true
  /\ Py.encode_utf8 Demo.hi = Some [0x68; 0x69]
  /\ Py.len [0x68; 0x69] * 8 <= 65535
  /\ In (Sniff 3 [Demo.synack 49157 0xA50010F8])
        (events (send_stego_msg Demo.info Demo.answering Demo.hi
                   Demo.clt Demo.srv Demo.fresh)).
Proof.
  assert (H16 : Py.len [0x68; 0x69] * 8 <= 65535) by (vm_compute; discriminate).
  split; [exact demo_info_ok|]. split; [reflexivity|]. split; [reflexivity|].
  split; [exact H16|].
  refine (proj1 (proj1 (proj2 (proj2
            (C4_synack_accepted_iff_all_fields_match Demo.info Demo.answering
               Demo.hi [0x68; 0x69] Demo.clt Demo.srv Demo.fresh
               demo_info_ok eq_refl eq_refl H16)))
            [] (Demo.synack 49157 0xA50010F8) []
            (mkTCP 80 49157 7000 (0xA50010F8 + 1) 0x12)
            eq_refl (fun p (H : In p []) => False_ind _ H) _ eq_refl)).
  apply is_synack_reply_iff. reflexivity.
Defined.

Lemma randrange_bounds start stop r :
  start < stop -> start <= Py.randrange start stop r < stop.
Proof.
  intros H. unfold Py.randrange.
  pose proof (Z.mod_pos_bound r (stop - start)). lia.
Qed.

Lemma randrange_onto start stop p :
  start <= p < stop -> Py.randrange start stop (p - start) = p.
Proof. intros H. unfold Py.randrange. rewrite Z.mod_small; lia. Qed.

(** C9 (as the code has it): the local port is [randrange(49152, 65535)],
    whose upper bound is exclusive.  The port the client binds lies in
    49152..65534, every port of that range is reached by some draw, and no
    draw gives 65535. *)
Theorem C9_local_port_excludes_65535 cfg w msg clt_ip srv_ip self :
  let port := Py.randrange 49152 65535 (draw w) in
  nth_error (events (send_stego_msg cfg w msg clt_ip srv_ip self)) 2
    = Some (Bind clt_ip port (bind_ok w))
  /\ 49152 <= port <= 65534
  /\ port <> 65535
  /\ (forall p, 49152 <= p <= 65534 ->
        exists r, Py.randrange 49152 65535 r = p).
Proof.
  intros port.
  destruct (send_opening cfg w msg clt_ip srv_ip self) as [tail ->].
  pose proof (randrange_bounds 49152 65535 (draw w) ltac:(lia)) as B.
  fold port in B. repeat split; try lia.
  intros p Hp. exists (p - 49152). apply randrange_onto. lia.
Qed.

(** C5: a message of more than 65535 bits is rejected by the length check
    and no packet is sent, whatever the surroundings do; a message of at
    most 65535 bits passes the length check and, the socket being bound, the
    SYN carrying the header is the first packet sent. *)
Theorem C5_length_boundary cfg w msg bs clt_ip srv_ip self :
  info_ok cfg ->
  Py.encode_utf8 msg = Some bs ->
  let L := Py.len bs * 8 in
  let r := send_stego_msg cfg w msg clt_ip srv_ip self in
  (65535 < L ->
     result (_build_init_seq cfg msg self) = Return None
     /\ sent (events r) = []
     /\ result r = Return tt)
  /\ (L <= 65535 ->
        exists isn,
          result (_build_init_seq cfg msg self) = Return (Some isn)
          /\ (bind_ok w = true ->
                exists rest,
                  sent (events r)
                  = syn_packet cfg (bound w clt_ip srv_ip self) isn :: rest)).
Proof.
  intros Hok E L r. subst L r. split.
  - intros HL. split; [|split].
    + now rewrite (build_init_seq_rejects cfg msg bs self E HL).
    + destruct (send_rejected cfg w msg bs clt_ip srv_ip self E HL) as [-> _].
      rewrite sent_opening. destruct (bind_ok w); reflexivity.
    + apply (send_rejected cfg w msg bs clt_ip srv_ip self E HL).
  - intros HL. exists (wire_isn cfg (Py.len bs * 8)). split.
    + now rewrite (build_init_seq_accepts cfg msg bs self Hok E HL).
    + intros Hb.
      exact (send_accepted_syn_first cfg w msg bs clt_ip srv_ip self Hok Hb E HL).
Qed.

Lemma C5_length_boundary_witness :
  info_ok Demo.info
  /\ Py.encode_utf8 Demo.hi = Some [0x68; 0x69]
  /\ exists isn,
       result (_build_init_seq Demo.info Demo.hi Demo.fresh) = Return (Some isn)
       /\ exists rest,
            sent (events (send_stego_msg Demo.info Demo.silent
                            Demo.hi Demo.clt Demo.srv Demo.fresh))
            = syn_packet Demo.info
                (bound Demo.silent Demo.clt Demo.srv Demo.fresh) isn
              :: rest.
Proof.
  split; [exact demo_info_ok|]. split; [reflexivity|].
  destruct (proj2 (C5_length_boundary Demo.info Demo.silent Demo.hi
                     [0x68; 0x69] Demo.clt Demo.srv Demo.fresh
                     demo_info_ok eq_refl))
    as (isn & Hi & Hs); [vm_compute; discriminate|].
  exists isn. split; [exact Hi|]. exact (Hs eq_refl).
Defined.

(** The boundary itself: 8192 bytes are 65536 bits and are rejected, 8191
    bytes are 65528 bits and are accepted. *)
Example boundary_8192_bytes_rejected cfg self :
  Py.len (letters 8192) * 8 = 65536
  /\ _build_init_seq cfg (letters 8192) self = (rejected_log, self, Return None).
Proof.
  assert (E : Py.len (letters 8192) * 8 = 65536) by (now rewrite letters_len).
  split; [exact E|].
  apply (build_init_seq_rejects cfg _ (letters 8192)); [apply letters_encode|].
  rewrite E. reflexivity.
Qed.

Example boundary_8191_bytes_accepted cfg self :
  info_ok cfg ->
  Py.len (letters 8191) * 8 = 65528
  /\ _build_init_seq cfg (letters 8191) self
     = (accepted_log, self, Return (Some (wire_isn cfg 65528))).
Proof.
  intros Hok.
  assert (E : Py.len (letters 8191) * 8 = 65528) by (now rewrite letters_len).
  split; [exact E|]. rewrite <- E.
  apply (build_init_seq_accepts cfg _ (letters 8191) self Hok);
    [apply letters_encode|].
  rewrite E. discriminate.
Qed.

(** C7 as the specification words it: for a message of more than 65535
    bits nothing is sent, no socket was acquired before the length check
    reported the message, and none is held afterwards. *)
Definition too_large_holds_nothing (cfg : session_info) : Prop :=
  forall w msg bs clt_ip srv_ip self,
    Py.encode_utf8 msg = Some bs ->
    65535 < Py.len bs * 8 ->
    let t := events (send_stego_msg cfg w msg clt_ip srv_ip self) in
    sent t = []
    /\ ~ precedes SocketCreate too_long_warning t
    /\ socket_held t false = false.

(** C7 fails on the order: the socket is created and bound first, and the
    length check runs on the bound socket. *)
Lemma C7_socket_acquired_before_length_check :
  events (send_stego_msg Demo.info Demo.silent (letters 8192)
            Demo.clt Demo.srv Demo.fresh)
  = [SocketCreate; SetSockOpt; Bind Demo.clt 49157 true;
     Log INFO "Client bound"; Log INFO "Preparing to transmit message";
     too_long_warning; SocketClose]
  /\ ~ (exists cfg, too_large_holds_nothing cfg).
Proof.
  assert (HL : 65535 < Py.len (letters 8192) * 8)
    by (now rewrite letters_len).
  assert (T : forall cfg,
    events (send_stego_msg cfg Demo.silent (letters 8192)
              Demo.clt Demo.srv Demo.fresh)
    = [SocketCreate; SetSockOpt; Bind Demo.clt 49157 true;
       Log INFO "Client bound"; Log INFO "Preparing to transmit message";
       too_long_warning; SocketClose]).
  { intros cfg.
    now rewrite (send_too_large cfg Demo.silent (letters 8192)
                   (letters 8192) Demo.clt Demo.srv Demo.fresh
                   eq_refl (letters_encode 8192) HL). }
  split; [apply T|].
  intros [cfg C].
  destruct (C Demo.silent (letters 8192) (letters 8192)
              Demo.clt Demo.srv Demo.fresh (letters_encode 8192) HL)
    as (_ & N & _).
  apply N. rewrite T.
  exists [], [SetSockOpt; Bind Demo.clt 49157 true;
              Log INFO "Client bound"%string;
              Log INFO "Preparing to transmit message"%string], [SocketClose].
  reflexivity.
Qed.

(** C7, amended: for a message of more than 65535 bits nothing is sent and
    the operation returns at once; the socket was created and bound before
    the length check (which runs only on a bound socket) and is closed right
    after the check reports the message, so that none is held afterwards. *)
Theorem C7_too_large_aborts_and_closes_socket cfg w msg bs clt_ip srv_ip self :
  Py.encode_utf8 msg = Some bs ->
  65535 < Py.len bs * 8 ->
  let t := events (send_stego_msg cfg w msg clt_ip srv_ip self) in
  sent t = []
  /\ result (send_stego_msg cfg w msg clt_ip srv_ip self) = Return tt
  /\ (bind_ok w = true ->
        t = opening w clt_ip
              ++ [Log INFO "Client bound"; Log INFO "Preparing to transmit message";
                  too_long_warning; SocketClose])
  /\ (bind_ok w = false -> ~ In too_long_warning t)
  /\ socket_held t false = false.
Proof.
  intros E HL t. subst t.
  destruct (send_rejected cfg w msg bs clt_ip srv_ip self E HL) as [-> ->].
  rewrite sent_opening. unfold opening, rejected_log, too_long_warning.
  destruct (bind_ok w); cbn [app].
  - split; [reflexivity|]. split; [reflexivity|].
    split; [intros _; reflexivity|]. split; [discriminate|reflexivity].
  - split; [reflexivity|]. split; [reflexivity|]. split; [discriminate|].
    split; [|reflexivity]. intros _ I. cbn [In] in I.
    repeat (destruct I as [I|I]; [discriminate I|]). exact I.
Qed.

Lemma C7_too_large_aborts_and_closes_socket_witness :
  Py.encode_utf8 (letters 8192) = Some (letters 8192)
  /\ 65535 < Py.len (letters 8192) * 8
  /\ sent (events (send_stego_msg Demo.info Demo.silent (letters 8192)
                     Demo.clt Demo.srv Demo.fresh)) = []
  /\ socket_held (events (send_stego_msg Demo.info Demo.silent
                            (letters 8192) Demo.clt Demo.srv Demo.fresh))
       false = false.
Proof.
  assert (HL : 65535 < Py.len (letters 8192) * 8)
    by (rewrite letters_len; [reflexivity|discriminate]).
  split; [exact (letters_encode 8192)|]. split; [exact HL|].
  pose proof (C7_too_large_aborts_and_closes_socket Demo.info Demo.silent
                (letters 8192) (letters 8192) Demo.clt Demo.srv Demo.fresh
                (letters_encode 8192) HL) as H.
  split; [exact (proj1 H)|exact (proj2 (proj2 (proj2 (proj2 H))))].
Defined.

(** The data phase of "hi" never meets the 32-bit limit, whatever the
    parameters. *)
Lemma hi_fits cfg :
  info_ok cfg ->
  forallb fits32 (seq_walk (wire_isn cfg 16 + 1) 0 (Py.frombytes [0x68; 0x69]))
  = true.
Proof.
  intros Hok.
  pose proof (wire_isn_sum cfg 16 Hok ltac:(lia)) as Hsum.
  pose proof (crc_byte cfg Hok [MAGIC_SEQ cfg; Z.shiftr 16 8; Z.land 16 0xFF]) as Hc.
  pose proof (magic_byte cfg Hok) as Hm.
  rewrite <- (firstn_all (seq_walk _ _ _)), seq_walk_length.
  change (length (Py.frombytes [0x68; 0x69])) with 16%nat.
  apply walk_fits_upto; [lia|].
  change (2 ^ 32) with 4294967296. lia.
Qed.

(** C8: byte [k] of the payload supplies the bits [8k .. 8k+7], its most
    significant bit first, and "hi" is the 16 bits 01101000 01101001.  After
    the handshake (the ACK having been sent) the data packets carry these
    bits in this order, one per packet, as the lowest bit of their sequence
    numbers: always a prefix of the bits, all of them when the operation
    returns, and for "hi" it always returns. *)
Theorem C8_bits_sent_msb_first cfg w msg bs clt_ip srv_ip self pkt t :
  info_ok cfg ->
  bind_ok w = true ->
  Py.encode_utf8 msg = Some bs ->
  Py.len bs * 8 <= 65535 ->
  let self1 := set_seq (wire_isn cfg (Py.len bs * 8)) (bound w clt_ip srv_ip self) in
  let r := send_stego_msg cfg w msg clt_ip srv_ip self in
  sniff (is_synack_reply cfg self1) 1 (arriving w) = [pkt] ->
  tcp_layer pkt = Some t ->
  fits32 (seq t + 1) = true ->
  (forall k j b, nth_error bs k = Some b -> (j < 8)%nat ->
     nth_error (Py.frombytes bs) (8 * k + j)
     = Some (Z.b2z (Z.testbit b (7 - Z.of_nat j))))
  /\ (exists syn ack vs k,
        sent (events r) = syn :: ack :: map (data_packet cfg self1) vs
        /\ map lsb vs = firstn k (Py.frombytes bs)
        /\ (result r = Return tt -> map lsb vs = Py.frombytes bs))
  /\ Py.encode_utf8 Demo.hi = Some [0x68; 0x69]
  /\ Py.frombytes [0x68; 0x69] = [0; 1; 1; 0; 1; 0; 0; 0; 0; 1; 1; 0; 1; 0; 0; 1]
  /\ (bs = [0x68; 0x69] -> result r = Return tt).
Proof.
  intros Hok Hb E HL self1 r Hs T Hack. subst r.
  pose proof (send_established cfg w msg bs clt_ip srv_ip self pkt t
                Hok Hb E HL Hs T Hack) as Hrun. cbv zeta in Hrun.
  split; [|split; [|split; [reflexivity|split; [reflexivity|]]]].
  - intros k j b. apply frombytes_nth.
  - destruct (sent_walk_lsb (Py.frombytes bs)
                (wire_isn cfg (Py.len bs * 8) + 1) 0 (frombytes_binary bs))
      as (k & Hk & Hall).
    do 3 eexists. exists k. split; [|split].
    + exact (send_established_sent cfg w msg bs clt_ip srv_ip self pkt t
               Hok Hb E HL Hs T Hack).
    + exact Hk.
    + rewrite Hrun. cbn [result snd]. intros R. apply Hall.
      now apply (transmit_returns cfg) in R.
  - intros ->. rewrite Hrun. cbn [result snd]. apply transmit_returns.
    exact (hi_fits cfg Hok).
Qed.

Lemma C8_bits_sent_msb_first_witness :
  info_ok Demo.info
  /\ bind_ok Demo.answering = true
  /\ Py.encode_utf8 Demo.hi = Some [0x68; 0x69]
  /\ Py.len [0x68; 0x69] * 8 <= 65535
  /\ sniff (is_synack_reply Demo.info
              (set_seq 0xA50010F8 (bound Demo.answering Demo.clt Demo.srv Demo.fresh)))
       1 (arriving Demo.answering) = [Demo.synack 49157 0xA50010F8]
  /\ fits32 (7000 + 1) = true
  /\ exists syn ack vs,
       sent (events (send_stego_msg Demo.info Demo.answering Demo.hi
                       Demo.clt Demo.srv Demo.fresh))
       = syn :: ack
           :: map (data_packet Demo.info
                     (set_seq 0xA50010F8
                        (bound Demo.answering Demo.clt Demo.srv Demo.fresh))) vs
       /\ map lsb vs = [0; 1; 1; 0; 1; 0; 0; 0; 0; 1; 1; 0; 1; 0; 0; 1].
Proof.
  assert (H16 : Py.len [0x68; 0x69] * 8 <= 65535) by (vm_compute; discriminate).
  split; [exact demo_info_ok|]. split; [reflexivity|]. split; [reflexivity|].
  split; [exact H16|]. split; [reflexivity|]. split; [reflexivity|].
  pose proof (C8_bits_sent_msb_first Demo.info Demo.answering Demo.hi
                [0x68; 0x69] Demo.clt Demo.srv Demo.fresh
                (Demo.synack 49157 0xA50010F8)
                (mkTCP 80 49157 7000 (0xA50010F8 + 1) 0x12)
                demo_info_ok eq_refl eq_refl H16 eq_refl eq_refl eq_refl) as H.
  destruct H as (_ & (syn & ack & vs & k & Hsent & _ & Hall) & _ & _ & Hret).
  exists syn, ack, vs. split; [exact Hsent|]. exact (Hall (Hret eq_refl)).
Defined.

(** C10: the empty message passes the length check; its header has length
    field 0; after the SYN and a matching SYN-ACK whose acknowledgment fits,
    the ACK is sent and then, with no data packet in between, the socket is
    closed and the operation returns. *)
Theorem C10_empty_message_sends_no_data cfg w clt_ip srv_ip self pkt t :
  info_ok cfg ->
  bind_ok w = true ->
  let isn := wire_isn cfg 0 in
  let self1 := set_seq isn (bound w clt_ip srv_ip self) in
  sniff (is_synack_reply cfg self1) 1 (arriving w) = [pkt] ->
  tcp_layer pkt = Some t ->
  fits32 (seq t + 1) = true ->
  result (_build_init_seq cfg [] self) = Return (Some isn)
  /\ Z.land (Z.shiftr isn 8) 0xFFFF = 0
  /\ events (send_stego_msg cfg w [] clt_ip srv_ip self)
     = opening w clt_ip ++ Log INFO "Client bound" :: accepted_log
         ++ [Send (syn_packet cfg self1 isn);
             Log INFO "Sent SYN packet with init sequence";
             Sniff 3 [pkt]; Log DEBUG "Got SYN-ACK";
             Send (ack_packet cfg self1 (seq t)); Log INFO "Start transmission!";
             SocketClose; Log INFO "Client socket closed"]
  /\ sent (events (send_stego_msg cfg w [] clt_ip srv_ip self))
     = [syn_packet cfg self1 isn; ack_packet cfg self1 (seq t)]
  /\ result (send_stego_msg cfg w [] clt_ip srv_ip self) = Return tt.
Proof.
  intros Hok Hb isn self1 Hs T Hack.
  assert (E : Py.encode_utf8 [] = Some []) by reflexivity.
  assert (HL : Py.len (@nil Z) * 8 <= 65535) by discriminate.
  split; [|split; [|split; [|split]]].
  - now rewrite (build_init_seq_accepts cfg [] [] self Hok E HL).
  - apply wire_isn_length_field; [exact Hok|lia].
  - rewrite (send_established cfg w [] [] clt_ip srv_ip self pkt t
               Hok Hb E HL Hs T Hack). reflexivity.
  - exact (send_established_sent cfg w [] [] clt_ip srv_ip self pkt t
             Hok Hb E HL Hs T Hack).
  - rewrite (send_established cfg w [] [] clt_ip srv_ip self pkt t
               Hok Hb E HL Hs T Hack). reflexivity.
Qed.

Lemma C10_empty_message_sends_no_data_witness :
  info_ok Demo.info
  /\ bind_ok (mkWorld 5 true [Demo.synack 49157 0xA5000088]) = true
  /\ sniff (is_synack_reply Demo.info
              (set_seq (wire_isn Demo.info 0)
                 (bound (mkWorld 5 true [Demo.synack 49157 0xA5000088])
                    Demo.clt Demo.srv Demo.fresh)))
       1 [Demo.synack 49157 0xA5000088] = [Demo.synack 49157 0xA5000088]
  /\ fits32 (7000 + 1) = true
  /\ seq_numbers
       (sent (events (send_stego_msg Demo.info
                        (mkWorld 5 true [Demo.synack 49157 0xA5000088])
                        [] Demo.clt Demo.srv Demo.fresh)))
     = [0xA5000088; 0xA5000089].
Proof.
  split; [exact demo_info_ok|]. split; [reflexivity|]. split; [reflexivity|].
  split; [reflexivity|].
  rewrite (proj1 (proj2 (proj2 (proj2
    (C10_empty_message_sends_no_data Demo.info
       (mkWorld 5 true [Demo.synack 49157 0xA5000088]) Demo.clt Demo.srv
       Demo.fresh (Demo.synack 49157 0xA5000088)
       (mkTCP 80 49157 7000 (0xA5000088 + 1) 0x12)
       demo_info_ok eq_refl eq_refl eq_refl eq_refl))))).
  reflexivity.
Defined.

(** ** No wrap-around *)

Lemma walk_values_nonneg bits_seq S v :
  0 <= S -> In v (seq_walk S 0 bits_seq) -> 0 <= v.
Proof.
  intros HS Hin. apply In_nth_error in Hin. destruct Hin as [n Hn].
  pose proof (seq_walk_half _ _ _ _ _ Hn) as Hh.
  assert (0 <= Z.of_nat n * (Z.of_nat n + 1)) by nia.
  Z.div_mod_to_equations. lia.
Qed.

(** The longest message that passes the length check cannot be sent,
    whatever the magic constant and the CRC are. *)
Lemma longest_message_overflows cfg :
  info_ok cfg ->
  forallb fits32 (seq_walk (wire_isn cfg 65528 + 1) 0 (Py.frombytes (letters 8191)))
  = false.
Proof.
  intros Hok.
  pose proof (wire_isn_sum cfg 65528 Hok ltac:(lia)) as Hr.
  pose proof (crc_byte cfg Hok [MAGIC_SEQ cfg; Z.shiftr 65528 8; Z.land 65528 0xFF]) as Hc.
  pose proof (magic_byte cfg Hok) as Hm.
  set (n := (8 * Z.to_nat 8190 + 7)%nat).
  assert (B : nth_error (Py.frombytes (letters 8191)) n = Some 1).
  { unfold n. rewrite (frombytes_nth (letters 8191) (Z.to_nat 8190) 7 0x61);
      [reflexivity| |lia].
    apply nth_error_repeat. lia. }
  destruct (seq_walk_odd _ (wire_isn cfg 65528 + 1) 0 n 1 B) as (v & Hv & _).
  apply (forallb_refuted _ n v Hv).
  assert (H0 : 0 <= wire_isn cfg 65528 + 1) by lia.
  rewrite (walk_value_fits _ _ n v H0 Hv).
  replace (Z.of_nat n) with 65527 by (unfold n; lia).
  apply Z.ltb_ge. change (2 ^ 32) with 4294967296. lia.
Qed.

(** C6 (as the code has it): the session sequence number is an unbounded
    integer and is never reduced modulo [2^32].  For an 8191-byte message,
    which passes the length check, it outgrows 32 bits during the data
    phase: [send] refuses the packet with ValueError, the remaining bits are
    never sent and the socket stays open.  With the demonstration parameters
    this happens at the data packet of bit 38858, after 38860 packets, with
    the session sequence number at 4294999017; it happens for every
    admissible magic constant and CRC. *)
Theorem C6_sequence_number_outgrows_32_bits :
  let r := send_stego_msg Demo.info (mkWorld 5 true [reply Demo.info 65528])
             (letters 8191) Demo.clt Demo.srv Demo.fresh in
  (result r = Raise ValueError
   /\ Z.of_nat (length (sent (events r))) = 38860
   /\ _seq (final r) = 4294999017
   /\ socket_held (events r) false = true)
  /\ (forall cfg, info_ok cfg ->
        let r' := send_stego_msg cfg (mkWorld 5 true [reply cfg 65528])
                    (letters 8191) Demo.clt Demo.srv Demo.fresh in
        result r' = Raise ValueError
        /\ 2 ^ 32 <= _seq (final r')
        /\ socket_held (events r') false = true).
Proof.
  split; [vm_compute; repeat split|].
  intros cfg Hok r'. subst r'.
  assert (E : Py.len (letters 8191) * 8 = 65528) by (now rewrite letters_len).
  assert (HL : Py.len (letters 8191) * 8 <= 65535) by (rewrite E; discriminate).
  set (w := mkWorld 5 true [reply cfg 65528]).
  pose proof (send_established_parts cfg w (letters 8191) (letters 8191)
                Demo.clt Demo.srv Demo.fresh (reply cfg 65528) (reply_tcp cfg 65528)
                Hok eq_refl (letters_encode 8191) HL) as S.
  cbv zeta in S. rewrite E in S.
  destruct (S (reply_sniffed cfg 65528 Demo.fresh) eq_refl eq_refl)
    as (-> & -> & ->).
  clear S.
  pose proof (longest_message_overflows cfg Hok) as F.
  pose proof (wire_isn_range cfg 65528 Hok ltac:(lia)) as Hr.
  rewrite (transmit_raises cfg (Py.frombytes (letters 8191)) 0
             (set_seq (wire_isn cfg 65528 + 1)
                (set_seq (wire_isn cfg 65528)
                   (bound w Demo.clt Demo.srv Demo.fresh))) F).
  split; [reflexivity|]. split; [|reflexivity].
  rewrite transmit_final_seq. cbn [_seq set_seq].
  destruct (walk_stop_refused _ (wire_isn cfg 65528 + 1) F) as [Hf Hin].
  assert (H0 : 0 <= wire_isn cfg 65528 + 1) by lia.
  apply (walk_values_nonneg _ _ _ H0) in Hin.
  unfold fits32 in Hf. apply andb_false_iff in Hf.
  destruct Hf as [Hf|Hf]; [apply Z.leb_gt in Hf; lia|now apply Z.ltb_ge in Hf].
Qed.

(** * Further properties of the client *)

(** ** [_build_init_seq] *)

(** Rewrites with the equations at hand and steps through the binds. *)
Ltac settle :=
  repeat first
    [ progress run
    | progress cbv beta
    | match goal with H : _ = _ |- _ => rewrite H end
    | progress cbn [lift]
    | erewrite bind_fail by reflexivity ];
  flat.

(** Whatever the parameters and the message, [_build_init_seq] only logs:
    its events and its outcome do not depend on the client object, which it
    leaves as it found it. *)
Lemma build_init_seq_pure cfg msg :
  exists logs r,
    (forall self, _build_init_seq cfg msg self = (logs, self, r))
    /\ sent logs = []
    /\ (forall h, socket_held logs h = h).
Proof.
  unfold _build_init_seq.
  destruct (Py.encode_utf8 msg) as [bs|];
    [|do 2 eexists; split; [intros self; settle|split; [|intros h]; reflexivity]].
  destruct (Py.len bs * BYTE_LEN_IN_BITS >? MAX_MSG_SIZE) eqn:G;
    [do 2 eexists; split; [intros self; settle|split; [|intros h]; reflexivity]|].
  set (mm := Z.shiftl (MAGIC_SEQ cfg) (MSG_LEN_BYTE * BYTE_LEN_IN_BITS)).
  destruct (Py.int2ba mm) eqn:I1;
    [|do 2 eexists; split; [intros self; settle|split; [|intros h]; reflexivity]].
  destruct (Py.int2ba (MAGIC_SEQ cfg)) eqn:I2;
    [|do 2 eexists; split; [intros self; settle|split; [|intros h]; reflexivity]].
  destruct (Py.to_bytes (Z.lor mm (Py.len bs * BYTE_LEN_IN_BITS))
              (MSG_LEN_BYTE + MAGIC_LEN_BYTE)) as [prefix|] eqn:P;
    [|do 2 eexists; split; [intros self; settle|split; [|intros h]; reflexivity]].
  destruct (Py.int2ba (CRC8_FUNC cfg prefix)) eqn:I3;
    [|do 2 eexists; split; [intros self; settle|split; [|intros h]; reflexivity]].
  destruct (Py.int2ba
              (Z.lor (Z.shiftl (Z.lor mm (Py.len bs * BYTE_LEN_IN_BITS))
                        (CRC_LEN_BYTE * BYTE_LEN_IN_BITS))
                     (CRC8_FUNC cfg prefix))) eqn:I4;
    do 2 eexists; (split; [intros self; settle|split; [|intros h]; reflexivity]).
Qed.

(** X12: [_build_init_seq] never touches the network, the socket or the
    client object: for every message and every parameter choice it sends
    nothing, leaves the object unchanged, and gives the same log and the same
    outcome on any two client objects. *)
Theorem X12_build_init_seq_only_logs cfg msg self self' h :
  final (_build_init_seq cfg msg self) = self
  /\ sent (events (_build_init_seq cfg msg self)) = []
  /\ socket_held (events (_build_init_seq cfg msg self)) h = h
  /\ events (_build_init_seq cfg msg self) = events (_build_init_seq cfg msg self')
  /\ result (_build_init_seq cfg msg self) = result (_build_init_seq cfg msg self').
Proof.
  destruct (build_init_seq_pure cfg msg) as (logs & r & H & Hs & Hh).
  rewrite !H. cbn [events final result fst snd]. auto.
Qed.

(** X1: the header read back byte by byte.  The four big-endian bytes of
    the value [_build_init_seq] returns are the magic constant, the high and
    the low byte of the bit count, and a last byte that is the CRC of the
    three bytes before it; the bit count is recovered as bits 8..23. *)
Theorem X1_header_round_trip cfg msg bs self :
  info_ok cfg ->
  Py.encode_utf8 msg = Some bs ->
  Py.len bs * 8 <= 65535 ->
  exists isn b0 b1 b2 b3,
    result (_build_init_seq cfg msg self) = Return (Some isn)
    /\ Py.to_bytes isn 4 = Some [b0; b1; b2; b3]
    /\ b0 = MAGIC_SEQ cfg
    /\ b1 * 256 + b2 = Py.len bs * 8
    /\ b3 = CRC8_FUNC cfg [b0; b1; b2]
    /\ Z.land (Z.shiftr isn 8) 0xFFFF = Py.len bs * 8.
Proof.
  intros Hok E HL.
  assert (HLr : 0 <= Py.len bs * 8 < 65536) by (unfold Py.len in *; lia).
  exists (wire_isn cfg (Py.len bs * 8)). do 4 eexists.
  split; [now rewrite (build_init_seq_accepts cfg msg bs self Hok E HL)|].
  split; [exact (wire_isn_bytes cfg _ Hok HLr)|].
  split; [reflexivity|]. split; [|split; [reflexivity|]].
  - rewrite land_255, Z.shiftr_div_pow2 by lia. change (2 ^ 8) with 256.
    Z.div_mod_to_equations. lia.
  - exact (wire_isn_length_field cfg _ Hok HLr).
Qed.

Lemma X1_header_round_trip_witness :
  info_ok Demo.info
  /\ Py.encode_utf8 Demo.hi = Some [0x68; 0x69]
  /\ Py.len [0x68; 0x69] * 8 <= 65535
  /\ exists isn b0 b1 b2 b3,
       result (_build_init_seq Demo.info Demo.hi Demo.fresh) = Return (Some isn)
       /\ Py.to_bytes isn 4 = Some [b0; b1; b2; b3]
       /\ b0 = MAGIC_SEQ Demo.info
       /\ b1 * 256 + b2 = Py.len [0x68; 0x69] * 8
       /\ b3 = CRC8_FUNC Demo.info [b0; b1; b2]
       /\ Z.land (Z.shiftr isn 8) 0xFFFF = Py.len [0x68; 0x69] * 8.
Proof.
  assert (H16 : Py.len [0x68; 0x69] * 8 <= 65535) by (vm_compute; discriminate).
  split; [exact demo_info_ok|]. split; [reflexivity|]. split; [exact H16|].
  exact (X1_header_round_trip Demo.info Demo.hi [0x68; 0x69] Demo.fresh
           demo_info_ok eq_refl H16).
Defined.

(** X2: the header depends on the length of the message and on nothing
    else: two messages that pass the length check get the same header
    exactly when their encodings have the same number of bytes. *)
Theorem X2_header_determined_by_length cfg msg1 msg2 bs1 bs2 self :
  info_ok cfg ->
  Py.encode_utf8 msg1 = Some bs1 ->
  Py.encode_utf8 msg2 = Some bs2 ->
  Py.len bs1 * 8 <= 65535 ->
  Py.len bs2 * 8 <= 65535 ->
  result (_build_init_seq cfg msg1 self) = result (_build_init_seq cfg msg2 self)
  <-> length bs1 = length bs2.
Proof.
  intros Hok E1 E2 H1 H2.
  rewrite (build_init_seq_accepts cfg msg1 bs1 self Hok E1 H1).
  rewrite (build_init_seq_accepts cfg msg2 bs2 self Hok E2 H2).
  cbn [result snd]. split.
  - intros H. injection H as H.
    apply (f_equal (fun x => Z.land (Z.shiftr x 8) 0xFFFF)) in H.
    rewrite !wire_isn_length_field in H
      by (try exact Hok; unfold Py.len in *; lia).
    unfold Py.len in H. lia.
  - intros H. unfold Py.len. now rewrite H.
Qed.

Lemma X2_header_determined_by_length_witness :
  info_ok Demo.info
  /\ Py.encode_utf8 Demo.hi = Some [0x68; 0x69]
  /\ Py.encode_utf8 [0x6F; 0x6B] = Some [0x6F; 0x6B]
  /\ Py.len [0x68; 0x69] * 8 <= 65535
  /\ Py.len [0x6F; 0x6B] * 8 <= 65535
  /\ result (_build_init_seq Demo.info Demo.hi Demo.fresh)
     = result (_build_init_seq Demo.info [0x6F; 0x6B] Demo.fresh).
Proof.
  assert (H1 : Py.len [0x68; 0x69] * 8 <= 65535) by (vm_compute; discriminate).
  assert (H2 : Py.len [0x6F; 0x6B] * 8 <= 65535) by (vm_compute; discriminate).
  split; [exact demo_info_ok|]. split; [reflexivity|]. split; [reflexivity|].
  split; [exact H1|]. split; [exact H2|].
  exact (proj2 (X2_header_determined_by_length Demo.info Demo.hi [0x6F; 0x6B]
                  [0x68; 0x69] [0x6F; 0x6B] Demo.fresh
                  demo_info_ok eq_refl eq_refl H1 H2) eq_refl).
Defined.

(** X13: the magic constant has to be one byte.  With a magic constant
    outside 0..255 [_build_init_seq] raises OverflowError for every message
    that passes the length check (from the debug formatting if the constant
    is negative, from the three-byte conversion if it is too big), before
    anything is sent. *)
Theorem X13_magic_outside_byte_overflows cfg msg bs self :
  ~ 0 <= MAGIC_SEQ cfg < 256 ->
  Py.encode_utf8 msg = Some bs ->
  Py.len bs * 8 <= 65535 ->
  result (_build_init_seq cfg msg self) = Raise OverflowError
  /\ sent (events (_build_init_seq cfg msg self)) = [].
Proof.
  intros Hm E HL. split;
    [|destruct (build_init_seq_pure cfg msg) as (logs & r & H & Hs & _);
      now rewrite H].
  unfold _build_init_seq. rewrite E. run. cbv beta.
  change BYTE_LEN_IN_BITS with 8. change MAX_MSG_SIZE with 65535.
  assert (G : (Py.len bs * 8 >? 65535) = false).
  { rewrite Z.gtb_ltb. apply Z.ltb_ge. exact HL. }
  rewrite G. run.
  change (MSG_LEN_BYTE * 8) with 16. change (MSG_LEN_BYTE + MAGIC_LEN_BYTE) with 3.
  destruct (Z.lt_ge_cases (MAGIC_SEQ cfg) 0) as [Hneg|Hpos].
  - rewrite (int2ba_none (Z.shiftl (MAGIC_SEQ cfg) 16)).
    + cbn [lift]. erewrite bind_fail by reflexivity. flat.
    + apply Z.nle_gt. intros C. apply Z.shiftl_nonneg in C. lia.
  - pass_int2ba; [apply Z.shiftl_nonneg; lia|].
    pass_int2ba; [lia|].
    assert (HLr : 0 <= Py.len bs * 8 < 2 ^ 16)
      by (change (2 ^ 16) with 65536; unfold Py.len in *; lia).
    assert (P : Py.to_bytes (Z.lor (Z.shiftl (MAGIC_SEQ cfg) 16) (Py.len bs * 8)) 3
                = None).
    { unfold Py.to_bytes. rewrite lor_shiftl_add by (lia || exact HLr).
      change (2 ^ 16) with 65536 in *. change (2 ^ (8 * 3)) with 16777216.
      destruct (Z.leb_spec 0 (MAGIC_SEQ cfg * 65536 + Py.len bs * 8));
        [|reflexivity].
      destruct (Z.ltb_spec (MAGIC_SEQ cfg * 65536 + Py.len bs * 8) 16777216);
        [|reflexivity].
      exfalso. apply Hm. lia. }
    rewrite P. cbn [lift]. erewrite bind_fail by reflexivity. flat.
Qed.

Lemma X13_magic_outside_byte_overflows_witness :
  ~ 0 <= MAGIC_SEQ (mkSessionInfo 0x1A5 Demo.crc8 80 0x02 0x10 0x08) < 256
  /\ Py.encode_utf8 Demo.hi = Some [0x68; 0x69]
  /\ Py.len [0x68; 0x69] * 8 <= 65535
  /\ result (_build_init_seq (mkSessionInfo 0x1A5 Demo.crc8 80 0x02 0x10 0x08)
               Demo.hi Demo.fresh) = Raise OverflowError.
Proof.
  assert (Hm : ~ 0 <= MAGIC_SEQ (mkSessionInfo 0x1A5 Demo.crc8 80 0x02 0x10 0x08) < 256)
    by (cbn [MAGIC_SEQ]; lia).
  assert (H16 : Py.len [0x68; 0x69] * 8 <= 65535) by (vm_compute; discriminate).
  split; [exact Hm|]. split; [reflexivity|]. split; [exact H16|].
  exact (proj1 (X13_magic_outside_byte_overflows _ Demo.hi [0x68; 0x69] Demo.fresh
                  Hm eq_refl H16)).
Defined.

(** ** Error paths of [send_stego_msg] *)

(** X3: a message that cannot be encoded (a lone surrogate) makes
    [send_stego_msg] raise UnicodeEncodeError once the socket is bound:
    nothing has been sent, and the socket is left open, since no handler
    closes it. *)
Theorem X3_unencodable_message_leaves_socket_open cfg w msg clt_ip srv_ip self :
  bind_ok w = true ->
  Py.encode_utf8 msg = None ->
  let r := send_stego_msg cfg w msg clt_ip srv_ip self in
  result r = Raise UnicodeEncodeError
  /\ events r = opening w clt_ip ++ [Log INFO "Client bound"]
  /\ sent (events r) = []
  /\ socket_held (events r) false = true.
Proof.
  intros Hb E r. subst r.
  rewrite (send_unencodable cfg w msg clt_ip srv_ip self Hb E).
  repeat split.
Qed.

Lemma X3_unencodable_message_leaves_socket_open_witness :
  bind_ok Demo.silent = true
  /\ Py.encode_utf8 [0x68; 0xD800] = None
  /\ result (send_stego_msg Demo.info Demo.silent [0x68; 0xD800]
               Demo.clt Demo.srv Demo.fresh) = Raise UnicodeEncodeError
  /\ socket_held (events (send_stego_msg Demo.info Demo.silent [0x68; 0xD800]
                            Demo.clt Demo.srv Demo.fresh)) false = true.
Proof.
  split; [reflexivity|]. split; [reflexivity|].
  pose proof (X3_unencodable_message_leaves_socket_open Demo.info Demo.silent
                [0x68; 0xD800] Demo.clt Demo.srv Demo.fresh eq_refl eq_refl) as H.
  split; [exact (proj1 H)|exact (proj2 (proj2 (proj2 H)))].
Defined.

(** X4: when the bind fails the operation stops there: it logs the
    failure, closes the socket and returns, having sent nothing and without
    looking at the message at all (so even a message that cannot be encoded,
    or one that is too long, ends the same way). *)
Theorem X4_bind_failure_stops_before_the_message cfg w msg clt_ip srv_ip self :
  bind_ok w = false ->
  let r := send_stego_msg cfg w msg clt_ip srv_ip self in
  events r
  = [SocketCreate; SetSockOpt;
     Bind clt_ip (Py.randrange 49152 65535 (draw w)) false;
     Log ERROR "Failed to bind client socket"; SocketClose]
  /\ result r = Return tt
  /\ sent (events r) = []
  /\ socket_held (events r) false = false
  /\ forall msg', send_stego_msg cfg w msg' clt_ip srv_ip self = r.
Proof.
  intros Hb r. subst r.
  rewrite (send_bind_failure cfg w msg clt_ip srv_ip self Hb).
  unfold opening. rewrite Hb. repeat split.
  intros msg'. rewrite (send_bind_failure cfg w msg' clt_ip srv_ip self Hb).
  unfold opening. now rewrite Hb.
Qed.

Lemma X4_bind_failure_stops_before_the_message_witness :
  bind_ok (mkWorld 5 false []) = false
  /\ sent (events (send_stego_msg Demo.info (mkWorld 5 false [])
                     [0x68; 0xD800] Demo.clt Demo.srv Demo.fresh)) = []
  /\ result (send_stego_msg Demo.info (mkWorld 5 false [])
               [0x68; 0xD800] Demo.clt Demo.srv Demo.fresh) = Return tt.
Proof.
  split; [reflexivity|].
  pose proof (X4_bind_failure_stops_before_the_message Demo.info
                (mkWorld 5 false []) [0x68; 0xD800] Demo.clt Demo.srv
                Demo.fresh eq_refl) as H.
  split; [exact (proj1 (proj2 (proj2 H)))|exact (proj1 (proj2 H))].
Defined.

(** X5: when no arriving packet meets the SYN-ACK conditions the handshake
    times out: the SYN is the only packet sent, the session sequence number
    stays the header (it is not incremented), the timeout is logged as an
    error, the socket is closed and the operation returns normally. *)
Theorem X5_handshake_timeout cfg w msg bs clt_ip srv_ip self :
  info_ok cfg ->
  bind_ok w = true ->
  Py.encode_utf8 msg = Some bs ->
  Py.len bs * 8 <= 65535 ->
  let isn := wire_isn cfg (Py.len bs * 8) in
  let self1 := set_seq isn (bound w clt_ip srv_ip self) in
  (forall p, In p (arriving w) -> ~ synack_conditions cfg self1 p) ->
  let r := send_stego_msg cfg w msg clt_ip srv_ip self in
  sent (events r) = [syn_packet cfg self1 isn]
  /\ _seq (final r) = isn
  /\ In (Log ERROR "ACK from server wasn't received after timeout") (events r)
  /\ socket_held (events r) false = false
  /\ result r = Return tt.
Proof.
  intros Hok Hb E HL isn self1 Hno r. subst r.
  rewrite (send_timeout cfg w msg bs clt_ip srv_ip self Hok Hb E HL
             (sniff_nothing cfg self1 (arriving w) Hno)).
  cbn [events final result fst snd]. split; [reflexivity|].
  split; [reflexivity|]. split; [|split; reflexivity].
  apply in_or_app. right. right. apply in_or_app. right.
  cbn [In]. tauto.
Qed.

Lemma X5_handshake_timeout_witness :
  info_ok Demo.info
  /\ bind_ok Demo.silent = true
  /\ Py.encode_utf8 Demo.hi = Some [0x68; 0x69]
  /\ Py.len [0x68; 0x69] * 8 <= 65535
  /\ seq_numbers (sent (events (send_stego_msg Demo.info Demo.silent Demo.hi
                                  Demo.clt Demo.srv Demo.fresh)))
     = [0xA50010F8].
Proof.
  assert (H16 : Py.len [0x68; 0x69] * 8 <= 65535) by (vm_compute; discriminate).
  split; [exact demo_info_ok|]. split; [reflexivity|]. split; [reflexivity|].
  split; [exact H16|].
  rewrite (proj1 (X5_handshake_timeout Demo.info Demo.silent Demo.hi [0x68; 0x69]
                    Demo.clt Demo.srv Demo.fresh demo_info_ok eq_refl eq_refl H16
                    (fun p (H : In p []) => False_ind _ H))).
  reflexivity.
Defined.

(** X9: the handshake is completed with the first arriving packet that
    meets the conditions, whatever arrives after it.  If that packet's
    sequence number plus 1 fits 32 bits, the second packet sent is a pure ACK
    from the same local port whose sequence number is the header plus 1 and
    whose acknowledgment number is that packet's sequence number plus 1.  If
    it does not fit, [send] refuses the ACK: the SYN stays the only packet,
    the operation raises ValueError and the socket is left open. *)
Theorem X9_ack_answers_first_matching_synack
    cfg w msg bs clt_ip srv_ip self before pkt later t :
  info_ok cfg ->
  bind_ok w = true ->
  Py.encode_utf8 msg = Some bs ->
  Py.len bs * 8 <= 65535 ->
  let isn := wire_isn cfg (Py.len bs * 8) in
  let self1 := set_seq isn (bound w clt_ip srv_ip self) in
  let r := send_stego_msg cfg w msg clt_ip srv_ip self in
  arriving w = before ++ pkt :: later ->
  (forall p, In p before -> ~ synack_conditions cfg self1 p) ->
  synack_conditions cfg self1 pkt ->
  tcp_layer pkt = Some t ->
  (fits32 (seq t + 1) = true ->
     nth_error (sent (events r)) 1
     = Some (over (mkIP clt_ip srv_ip)
               (mkTCP (Py.randrange 49152 65535 (draw w)) (Port_HTTP cfg)
                  (isn + 1) (seq t + 1) (TcpFlag_ACK cfg))))
  /\ (fits32 (seq t + 1) = false ->
        sent (events r) = [syn_packet cfg self1 isn]
        /\ result r = Raise ValueError
        /\ _seq (final r) = isn + 1
        /\ socket_held (events r) false = true).
Proof.
  intros Hok Hb E HL isn self1 r Ha Hbefore Hp T. subst r.
  assert (Hs : sniff (is_synack_reply cfg self1) 1 (arriving w) = [pkt])
    by (rewrite Ha; now apply sniff_first).
  split; intros Hack.
  - rewrite (send_established_sent cfg w msg bs clt_ip srv_ip self pkt t
               Hok Hb E HL Hs T Hack).
    reflexivity.
  - rewrite (send_ack_refused cfg w msg bs clt_ip srv_ip self pkt t
               Hok Hb E HL Hs T Hack).
    repeat split.
Qed.

Lemma X9_ack_answers_first_matching_synack_witness :
  info_ok Demo.info
  /\ bind_ok Demo.answering = true
  /\ Py.encode_utf8 Demo.hi = Some [0x68; 0x69]
  /\ Py.len [0x68; 0x69] * 8 <= 65535
  /\ nth_error (sent (events (send_stego_msg Demo.info Demo.answering Demo.hi
                                Demo.clt Demo.srv Demo.fresh))) 1
     = Some (over (mkIP Demo.clt Demo.srv)
               (mkTCP 49157 80 0xA50010F9 7001 0x10)).
Proof.
  assert (H16 : Py.len [0x68; 0x69] * 8 <= 65535) by (vm_compute; discriminate).
  split; [exact demo_info_ok|]. split; [reflexivity|]. split; [reflexivity|].
  split; [exact H16|].
  refine (proj1 (X9_ack_answers_first_matching_synack Demo.info Demo.answering
            Demo.hi [0x68; 0x69] Demo.clt Demo.srv Demo.fresh []
            (Demo.synack 49157 0xA50010F8) []
            (mkTCP 80 49157 7000 (0xA50010F8 + 1) 0x12)
            demo_info_ok eq_refl eq_refl H16 eq_refl
            (fun p (H : In p []) => False_ind _ H) _ eq_refl) eq_refl).
  apply is_synack_reply_iff. reflexivity.
Defined.

(** ** Every run of [send_stego_msg] *)



(** X7: the number of data packets never exceeds the bit count the header
    announces, and equals it exactly when the operation returns normally.
    After a completed handshake the packets sent are the SYN, the ACK and
    data packets; the length field of the SYN's sequence number bounds the
    number of data packets, and a run that returns has sent
    [2 + 8 * len(bytes)] packets in all. *)
Theorem X7_data_packets_match_announced_length
    cfg w msg bs clt_ip srv_ip self pkt t :
  info_ok cfg ->
  bind_ok w = true ->
  Py.encode_utf8 msg = Some bs ->
  Py.len bs * 8 <= 65535 ->
  let self1 := set_seq (wire_isn cfg (Py.len bs * 8)) (bound w clt_ip srv_ip self) in
  let r := send_stego_msg cfg w msg clt_ip srv_ip self in
  sniff (is_synack_reply cfg self1) 1 (arriving w) = [pkt] ->
  tcp_layer pkt = Some t ->
  fits32 (seq t + 1) = true ->
  exists syn_seq ack_seq data,
    seq_numbers (sent (events r)) = syn_seq :: ack_seq :: data
    /\ length (sent (events r)) = (2 + length data)%nat
    /\ Z.of_nat (length data) <= Z.land (Z.shiftr syn_seq 8) 0xFFFF
    /\ (result r = Return tt
        <-> Z.of_nat (length data) = Z.land (Z.shiftr syn_seq 8) 0xFFFF)
    /\ (result r = Return tt
        -> length (sent (events r)) = (2 + 8 * length bs)%nat).
Proof.
  intros Hok Hb E HL self1 r Hs T Hack. subst r.
  destruct (send_established_parts cfg w msg bs clt_ip srv_ip self pkt t
              Hok Hb E HL Hs T Hack) as (Hr & _ & _).
  pose proof (send_established_sent cfg w msg bs clt_ip srv_ip self pkt t
                Hok Hb E HL Hs T Hack) as Hsent.
  cbv zeta in Hr, Hsent. fold self1 in Hr, Hsent.
  set (vs := seq_walk (wire_isn cfg (Py.len bs * 8) + 1) 0 (Py.frombytes bs)) in *.
  assert (Hret : result (send_stego_msg cfg w msg clt_ip srv_ip self) = Return tt
                 <-> forallb fits32 vs = true).
  { rewrite Hr. apply transmit_returns. }
  assert (Hlen : length vs = (8 * length bs)%nat)
    by (unfold vs; now rewrite seq_walk_length, frombytes_length).
  assert (Hfield : Z.land (Z.shiftr (wire_isn cfg (Py.len bs * 8)) 8) 0xFFFF
                   = Z.of_nat (length vs)).
  { rewrite wire_isn_length_field by (try exact Hok; unfold Py.len in *; lia).
    rewrite Hlen. unfold Py.len. lia. }
  exists (wire_isn cfg (Py.len bs * 8)), (wire_isn cfg (Py.len bs * 8) + 1),
    (sent_walk vs).
  rewrite Hsent, Hret, Hfield.
  split; [|split; [|split; [|split]]].
  - cbn [seq_numbers flat_map syn_packet ack_packet over tcp_layer seq app
           _seq set_seq self1].
    fold (seq_numbers (map (data_packet cfg self1) (sent_walk vs))).
    now rewrite seq_numbers_data.
  - cbn [length]. now rewrite length_map.
  - pose proof (sent_walk_length vs). lia.
  - rewrite <- sent_walk_full. split; intros H; lia.
  - intros F. cbn [length]. rewrite length_map, (sent_walk_all _ F), Hlen.
    reflexivity.
Qed.

Lemma X7_data_packets_match_announced_length_witness :
  info_ok Demo.info
  /\ bind_ok Demo.answering = true
  /\ Py.encode_utf8 Demo.hi = Some [0x68; 0x69]
  /\ Py.len [0x68; 0x69] * 8 <= 65535
  /\ fits32 (7000 + 1) = true
  /\ length (sent (events (send_stego_msg Demo.info Demo.answering Demo.hi
                             Demo.clt Demo.srv Demo.fresh))) = 18%nat.
Proof.
  assert (H16 : Py.len [0x68; 0x69] * 8 <= 65535) by (vm_compute; discriminate).
  split; [exact demo_info_ok|]. split; [reflexivity|]. split; [reflexivity|].
  split; [exact H16|]. split; [reflexivity|].
  destruct (X7_data_packets_match_announced_length Demo.info Demo.answering
              Demo.hi [0x68; 0x69] Demo.clt Demo.srv Demo.fresh
              (Demo.synack 49157 0xA50010F8)
              (mkTCP 80 49157 7000 (0xA50010F8 + 1) 0x12)
              demo_info_ok eq_refl eq_refl H16 eq_refl eq_refl eq_refl)
    as (s & a & d & _ & _ & _ & _ & Hn).
  exact (Hn eq_refl).
Defined.

(** X10: one flow.  Every packet a send operation hands to the transport
    goes from the client address to the server address, from the local port
    drawn at the start to the service port. *)
Theorem X10_all_packets_on_one_flow cfg w msg clt_ip srv_ip self p :
  info_ok cfg ->
  In p (sent (events (send_stego_msg cfg w msg clt_ip srv_ip self))) ->
  exists t,
    p = over (mkIP clt_ip srv_ip) t
    /\ sport t = Py.randrange 49152 65535 (draw w)
    /\ dport t = Port_HTTP cfg.
Proof.
  intros Hok.
  destruct (send_cases cfg w msg clt_ip srv_ip self)
    as [Hb|[(Hb & E)|[(bs & Hb & E & HL)|[(bs & Hb & E & HL & Hs)
                                          |(bs & pkt & t & Hb & E & HL & Hs & T)]]]].
  - rewrite (send_bind_failure cfg w msg clt_ip srv_ip self Hb). intros [].
  - rewrite (send_unencodable cfg w msg clt_ip srv_ip self Hb E). intros [].
  - rewrite (send_too_large cfg w msg bs clt_ip srv_ip self Hb E HL). intros [].
  - rewrite (send_timeout_sent cfg w msg bs clt_ip srv_ip self Hok Hb E HL Hs).
    intros [<-|[]]. eexists. repeat split.
  - destruct (fits32 (seq t + 1)) eqn:Hack.
    + rewrite (send_established_sent cfg w msg bs clt_ip srv_ip self pkt t
                 Hok Hb E HL Hs T Hack).
      intros [<-|[<-|I]]; [eexists; repeat split..|].
      apply in_map_iff in I. destruct I as (v & <- & _). eexists. repeat split.
    + rewrite (send_ack_refused_sent cfg w msg bs clt_ip srv_ip self pkt t
                 Hok Hb E HL Hs T Hack).
      intros [<-|[]]. eexists. repeat split.
Qed.

Lemma X10_all_packets_on_one_flow_witness :
  info_ok Demo.info
  /\ In (over (mkIP Demo.clt Demo.srv) (mkTCP 49157 80 0xA50010F8 0 0x02))
        (sent (events (send_stego_msg Demo.info Demo.silent Demo.hi
                         Demo.clt Demo.srv Demo.fresh)))
  /\ exists t,
       over (mkIP Demo.clt Demo.srv) (mkTCP 49157 80 0xA50010F8 0 0x02)
       = over (mkIP Demo.clt Demo.srv) t
       /\ sport t = Py.randrange 49152 65535 (draw Demo.silent)
       /\ dport t = Port_HTTP Demo.info.
Proof.
  assert (I : In (over (mkIP Demo.clt Demo.srv) (mkTCP 49157 80 0xA50010F8 0 0x02))
                 (sent (events (send_stego_msg Demo.info Demo.silent Demo.hi
                                  Demo.clt Demo.srv Demo.fresh))))
    by (vm_compute; left; reflexivity).
  split; [exact demo_info_ok|]. split; [exact I|].
  exact (X10_all_packets_on_one_flow Demo.info Demo.silent Demo.hi
           Demo.clt Demo.srv Demo.fresh _ demo_info_ok I).
Defined.

(** X14: a send operation does not depend on what the client object held
    before: addresses, port and sequence number are all overwritten before
    they are read, so the same call gives the same events and the same
    outcome on any two client objects. *)
Theorem X14_send_independent_of_previous_state
    cfg w msg clt_ip srv_ip self self' :
  events (send_stego_msg cfg w msg clt_ip srv_ip self)
  = events (send_stego_msg cfg w msg clt_ip srv_ip self')
  /\ result (send_stego_msg cfg w msg clt_ip srv_ip self)
     = result (send_stego_msg cfg w msg clt_ip srv_ip self').
Proof.
  unfold send_stego_msg. run. destruct (bind_ok w); [|run; split; reflexivity].
  run.
  destruct (build_init_seq_pure cfg msg) as (logs & r & H & _).
  destruct r as [[isn|]|e].
  - rewrite !(bind_run _ _ _ _ _ _ (H _)). run. cbv beta iota. run.
    split; reflexivity.
  - rewrite !(bind_run _ _ _ _ _ _ (H _)). run. split; reflexivity.
  - rewrite !(bind_fail _ _ _ _ _ _ (H _)). split; reflexivity.
Qed.

(** ** The data phase, once more *)

Lemma in_firstn {A} (l : list A) : forall k x, In x (firstn k l) -> In x l.
Proof.
  induction l as [|a l IH]; intros [|k] x H; simpl in *; try contradiction.
  destruct H as [H|H]; [now left | right; eauto].
Qed.

Lemma sorted_firstn {A} (R : A -> A -> Prop) l : forall k,
  StronglySorted R l -> StronglySorted R (firstn k l).
Proof.
  induction l as [|a l IH]; intros [|k] H; try constructor.
  - apply IH. now inversion H.
  - inversion H as [|? ? _ Hall]; subst. rewrite Forall_forall in *.
    intros x Hx. apply Hall. eapply in_firstn; eassumption.
Qed.

Lemma nth_error_firstn_some {A} (l : list A) k n x :
  nth_error (firstn k l) n = Some x -> nth_error l n = Some x.
Proof.
  rewrite nth_error_firstn. destruct (n <? k)%nat; [auto|discriminate].
Qed.

(** X8: the data packets are sent with strictly increasing sequence
    numbers, so no two of them carry the same one.  From the packet of bit
    [n] to the packet of bit [n + 1] the number grows by [2n + 1], [2n + 2] or
    [2n + 3], and the first one is the session sequence number give or take
    1. *)
Theorem X8_data_sequence_numbers_increase cfg self bits_seq :
  let vs := seq_numbers (sent (events (transmit cfg 0 bits_seq self))) in
  StronglySorted Z.lt vs
  /\ NoDup vs
  /\ (forall n v v', nth_error vs n = Some v -> nth_error vs (S n) = Some v' ->
        v + 2 * Z.of_nat n + 1 <= v' <= v + 2 * Z.of_nat n + 3)
  /\ (forall v0, nth_error vs 0 = Some v0 -> _seq self - 1 <= v0 <= _seq self + 1).
Proof.
  intros vs. subst vs. rewrite transmit_sent, seq_numbers_data.
  destruct (sent_walk_prefix (seq_walk (_seq self) 0 bits_seq)) as [k ->].
  assert (SS : StronglySorted Z.lt (firstn k (seq_walk (_seq self) 0 bits_seq))).
  { apply sorted_firstn.
    apply Sorted_StronglySorted; [intros x y z; apply Z.lt_trans|].
    apply seq_walk_sorted. lia. }
  split; [exact SS|]. split; [|split].
  - clear - SS. induction SS as [|v vs _ IH Hall]; constructor; [|exact IH].
    intros I. rewrite Forall_forall in Hall. specialize (Hall v I). lia.
  - intros n v v' Hv Hv'.
    apply nth_error_firstn_some in Hv. apply nth_error_firstn_some in Hv'.
    destruct (seq_walk_next _ _ _ _ _ _ Hv Hv') as [bit ->].
    pose proof (next_seq_near v (0 + Z.of_nat n + 1) bit). lia.
  - intros v0 Hv. apply nth_error_firstn_some in Hv.
    destruct bits_seq as [|b rest]; [discriminate|].
    cbn [seq_walk nth_error] in Hv. injection Hv as <-.
    pose proof (next_seq_near (_seq self) 0 b). lia.
Qed.

(** ** The payload can be read back *)

Definition is_byte (b : Z) : Prop := 0 <= b < 256.

Lemma byte_bits_inj a b :
  is_byte a -> is_byte b -> Py.byte_bits a = Py.byte_bits b -> a = b.
Proof.
  intros Ha Hb H.
  assert (T : forall k, 0 <= k < 8 -> Z.testbit a k = Z.testbit b k).
  { intros k Hk.
    pose proof (f_equal (fun l => nth_error l (Z.to_nat (7 - k))) H) as E.
    cbv beta in E. rewrite !byte_bits_nth in E by lia.
    replace (7 - Z.of_nat (Z.to_nat (7 - k))) with k in E by lia.
    apply Z.b2z_inj. congruence. }
  apply Z.bits_inj'. intros k Hk.
  destruct (Z.lt_ge_cases k 8) as [Hlt|Hge]; [apply T; lia|].
  unfold is_byte in *.
  rewrite <- (Z.mod_small a (2 ^ 8)), <- (Z.mod_small b (2 ^ 8))
    by (change (2 ^ 8) with 256; lia).
  rewrite !Z.mod_pow2_bits_high by lia. reflexivity.
Qed.

Lemma app_same_length {A} (l1 : list A) : forall l2 r1 r2,
  length l1 = length l2 -> l1 ++ r1 = l2 ++ r2 -> l1 = l2 /\ r1 = r2.
Proof.
  induction l1 as [|x l1 IH]; intros [|y l2] r1 r2 Hl H; try discriminate.
  - split; [reflexivity|exact H].
  - cbn [app] in H. injection H as -> H. injection Hl as Hl.
    destruct (IH _ _ _ Hl H) as [-> ->]. split; reflexivity.
Qed.

Lemma frombytes_inj bs1 : forall bs2,
  Forall is_byte bs1 -> Forall is_byte bs2 ->
  Py.frombytes bs1 = Py.frombytes bs2 -> bs1 = bs2.
Proof.
  induction bs1 as [|a bs1 IH]; intros [|b bs2] F1 F2 H;
    [reflexivity|discriminate H|discriminate H|].
  inversion F1 as [|? ? Ha F1']; subst. inversion F2 as [|? ? Hb F2']; subst.
  unfold Py.frombytes in H. cbn [flat_map] in H.
  apply app_same_length in H; [|reflexivity].
  destruct H as [Hab Ht]. f_equal.
  - now apply byte_bits_inj.
  - now apply IH.
Qed.

Lemma tagged_byte tag n x :
  0 <= n -> 0 <= x < 2 ^ n -> 0 <= tag -> tag * 2 ^ n + 2 ^ n <= 256 ->
  is_byte (Z.lor (Z.shiftl tag n) x).
Proof.
  intros Hn Hx Ht Hb. rewrite lor_shiftl_add by assumption.
  unfold is_byte. nia.
Qed.

Lemma low_six x : 0 <= Z.land x 0x3F < 2 ^ 6.
Proof.
  change 0x3F with (Z.ones 6). rewrite Z.land_ones by lia.
  apply Z.mod_pos_bound. reflexivity.
Qed.

Ltac take_some E :=
  match type of E with
  | Some ?l = Some ?bs => replace bs with l by congruence
  end.

Lemma encode_code_point_bytes c bs :
  Py.encode_code_point c = Some bs -> Forall is_byte bs.
Proof.
  unfold Py.encode_code_point.
  destruct (Z.ltb_spec c 0); [discriminate|].
  destruct (Z.ltb_spec c 0x80).
  { intros E; take_some E. repeat apply Forall_cons; try apply Forall_nil.
    unfold is_byte; lia. }
  destruct (Z.ltb_spec c 0x800).
  { intros E; take_some E.
    change 0xC0 with (Z.shiftl 6 5). change 0x80 with (Z.shiftl 2 6).
    repeat apply Forall_cons; try apply Forall_nil.
    - apply tagged_byte; try lia. rewrite Z.shiftr_div_pow2 by lia.
      change (2 ^ 6) with 64. change (2 ^ 5) with 32.
      Z.div_mod_to_equations. lia.
    - apply tagged_byte; try lia. apply low_six. }
  destruct (Z.ltb_spec c 0x10000).
  { destruct ((0xD800 <=? c) && (c <=? 0xDFFF)); [discriminate|].
    intros E; take_some E.
    change 0xE0 with (Z.shiftl 14 4). change 0x80 with (Z.shiftl 2 6).
    repeat apply Forall_cons; try apply Forall_nil.
    - apply tagged_byte; try lia. rewrite Z.shiftr_div_pow2 by lia.
      change (2 ^ 12) with 4096. change (2 ^ 4) with 16.
      Z.div_mod_to_equations. lia.
    - apply tagged_byte; try lia. apply low_six.
    - apply tagged_byte; try lia. apply low_six. }
  destruct (Z.ltb_spec c 0x110000); [|discriminate].
  intros E; take_some E.
  change 0xF0 with (Z.shiftl 30 3). change 0x80 with (Z.shiftl 2 6).
  repeat apply Forall_cons; try apply Forall_nil.
  - apply tagged_byte; try lia. rewrite Z.shiftr_div_pow2 by lia.
    change (2 ^ 18) with 262144. change (2 ^ 3) with 8.
    Z.div_mod_to_equations. lia.
  - apply tagged_byte; try lia. apply low_six.
  - apply tagged_byte; try lia. apply low_six.
  - apply tagged_byte; try lia. apply low_six.
Qed.

Lemma encode_utf8_bytes msg : forall bs,
  Py.encode_utf8 msg = Some bs -> Forall is_byte bs.
Proof.
  induction msg as [|c rest IH]; intros bs E.
  - injection E as <-. constructor.
  - cbn [Py.encode_utf8] in E.
    destruct (Py.encode_code_point c) as [b1|] eqn:E1; [|discriminate].
    destruct (Py.encode_utf8 rest) as [b2|]; [|discriminate].
    injection E as <-. apply Forall_app. split;
      [exact (encode_code_point_bytes c b1 E1)|now apply IH].
Qed.

(** X11: nothing of the payload is lost in a data phase that runs to its
    end.  If the transmissions of two messages both return and their data
    packets carry the same sequence of low bits, whatever sequence numbers
    they started from, then the two messages have the same UTF-8 bytes. *)
Theorem X11_low_bits_determine_payload cfg self self' msg1 msg2 bs1 bs2 :
  Py.encode_utf8 msg1 = Some bs1 ->
  Py.encode_utf8 msg2 = Some bs2 ->
  result (transmit cfg 0 (Py.frombytes bs1) self) = Return tt ->
  result (transmit cfg 0 (Py.frombytes bs2) self') = Return tt ->
  map lsb (seq_numbers (sent (events (transmit cfg 0 (Py.frombytes bs1) self))))
  = map lsb (seq_numbers (sent (events (transmit cfg 0 (Py.frombytes bs2) self')))) ->
  bs1 = bs2.
Proof.
  intros E1 E2 R1 R2 H.
  apply transmit_returns in R1. apply transmit_returns in R2.
  rewrite !transmit_sent, !seq_numbers_data in H.
  rewrite (sent_walk_all _ R1), (sent_walk_all _ R2) in H.
  rewrite !seq_walk_lsb in H by apply frombytes_binary.
  apply frombytes_inj; [exact (encode_utf8_bytes _ _ E1)
                       |exact (encode_utf8_bytes _ _ E2)|exact H].
Qed.

Lemma X11_low_bits_determine_payload_witness :
  Py.encode_utf8 Demo.hi = Some [0x68; 0x69]
  /\ Py.encode_utf8 [0x68; 0x69] = Some [0x68; 0x69]
  /\ result (transmit Demo.info 0 (Py.frombytes [0x68; 0x69]) Demo.fresh) = Return tt
  /\ result (transmit Demo.info 0 (Py.frombytes [0x68; 0x69])
               (set_seq 77 Demo.fresh)) = Return tt
  /\ map lsb (seq_numbers (sent (events
       (transmit Demo.info 0 (Py.frombytes [0x68; 0x69]) Demo.fresh))))
     = map lsb (seq_numbers (sent (events
       (transmit Demo.info 0 (Py.frombytes [0x68; 0x69]) (set_seq 77 Demo.fresh)))))
  /\ [0x68; 0x69] = [0x68; 0x69].
Proof.
  assert (H : map lsb (seq_numbers (sent (events
                (transmit Demo.info 0 (Py.frombytes [0x68; 0x69]) Demo.fresh))))
              = map lsb (seq_numbers (sent (events
                (transmit Demo.info 0 (Py.frombytes [0x68; 0x69])
                   (set_seq 77 Demo.fresh))))))
    by reflexivity.
  split; [reflexivity|]. split; [reflexivity|]. split; [reflexivity|].
  split; [reflexivity|]. split; [exact H|].
  exact (X11_low_bits_determine_payload Demo.info Demo.fresh (set_seq 77 Demo.fresh)
           Demo.hi [0x68; 0x69] [0x68; 0x69] [0x68; 0x69] eq_refl eq_refl
           eq_refl eq_refl H).
Defined.
